(** * Contract formation in the renter's contractor (Sia)

    A shallow embedding of [verifySettings], [negotiateContract],
    [newContract] and [formContracts] of package [contractor], and the
    properties of contract formation stated over it.

    The Go code talks to its collaborators (wallet, transaction builder,
    transaction pool, dialer, host database, the connection, the mutex, the
    logger and the persister) through interfaces.  The embedding keeps that
    shape: a program is a tree of requests to the collaborators ([Prog]); a
    [handler] is one implementation of all of them over a world state; [run]
    executes a program against a handler and records every call made.

    The peer list of the gateway ([addPeer], [removePeer], [randomPeer],
    [load]) is embedded as functions on a finite set of addresses. *)

From Stdlib Require Import NArith ZArith QArith Qround String List Lia.
From stdpp Require Import base option list strings gmap.
Import ListNotations.

Local Open Scope N_scope.

(** ** Machine integers and currency *)

(** Go's [uint64]: a natural number below [2^64]; arithmetic wraps. *)
Definition MaxUint64 : N := 18446744073709551615.
Definition wrap64 (n : N) : N := n mod 2 ^ 64.
Definition add64 (a b : N) : N := wrap64 (a + b).
Definition mul64 (a b : N) : N := wrap64 (a * b).

(** Go's [int(x)] for [x : uint64] on a 64-bit platform. *)
Definition int_of_uint64 (x : N) : Z :=
  if x <? 2 ^ 63 then Z.of_N x else (Z.of_N x - 2 ^ 64)%Z.

(** Modelled from the spec: [types.Currency] lives in package [types], which
    is not part of the sources at hand.  The spec speaks of amounts with
    integer division and of a quotient that may overflow the representable
    (64-bit) range; the type is an unbounded non-negative integer. [Div]
    by zero does not return (the underlying big-integer division panics),
    which is [None] here. *)
Definition Currency := N.
Definition ZeroCurrency : Currency := 0.
Definition NewCurrency64 (x : N) : Currency := x.
Definition Currency_Add (x y : Currency) : Currency := x + y.
Definition Currency_Mul (x y : Currency) : Currency := x * y.
Definition Currency_Div (x y : Currency) : option Currency :=
  if y =? 0 then None else Some (x / y).
Definition Currency_Cmp (x y : Currency) : Z :=
  match N.compare x y with Lt => (-1)%Z | Eq => 0%Z | Gt => 1%Z end.
(** [Uint64] fails when the amount does not fit in 64 bits. *)
Definition Currency_Uint64 (x : Currency) : option N :=
  if MaxUint64 <? x then None else Some x.

(** ** Errors *)

(** Go compares errors by identity; the two package-level sentinels are
    constructors, every other error is an [errors.New] value. *)
Inductive error : Type :=
| ErrDuplicateTransactionSet
| errTooExpensive
| errorsNew (msg : string).

Definition result (A : Type) : Type := (A + error)%type.

Definition is_duplicate (e : error) : bool :=
  match e with ErrDuplicateTransactionSet => true | _ => false end.

(** ** Data of package [types] and [modules] used by the code *)

Definition BlockHeight := N.
Definition UnlockHash := N.      (* a 32-byte hash; the zero value is 0 *)
Definition FileContractID := N.
Definition Hash := N.
Definition NetAddress := string.
Definition Specifier := string.
Definition Conn := N.            (* a connection handle *)
Definition Builder := N.         (* a transaction-builder handle *)

Record SiaPublicKey := {
  Algorithm : Specifier;
  Key : list Byte.byte }.

Record UnlockConditions := {
  PublicKeys : list SiaPublicKey;
  SignaturesRequired : N }.

Record SiacoinOutput := {
  Value : Currency;
  sco_UnlockHash : UnlockHash }.

Record FileContract := {
  fc_FileSize : N;
  fc_FileMerkleRoot : Hash;
  fc_WindowStart : BlockHeight;
  fc_WindowEnd : BlockHeight;
  fc_Payout : Currency;
  fc_ValidProofOutputs : list SiacoinOutput;
  fc_MissedProofOutputs : list SiacoinOutput;
  fc_UnlockHash : UnlockHash;
  fc_RevisionNumber : N }.

Record FileContractRevision := {
  ParentID : FileContractID;
  rev_UnlockConditions : UnlockConditions;
  NewRevisionNumber : N;
  NewFileSize : N;
  NewFileMerkleRoot : Hash;
  NewWindowStart : BlockHeight;
  NewWindowEnd : BlockHeight;
  NewValidProofOutputs : list SiacoinOutput;
  NewMissedProofOutputs : list SiacoinOutput;
  NewUnlockHash : UnlockHash }.

(** The settings a host announces; only the fields the contractor reads. *)
Record HostExternalSettings := {
  AcceptingContracts : bool;
  hes_NetAddress : NetAddress;
  hes_ContractPrice : Currency;
  hes_Collateral : Currency;
  hes_UnlockHash : UnlockHash;
  hes_WindowSize : BlockHeight }.

(** [modules.HostDBEntry] embeds the settings next to the public key. *)
Record HostDBEntry := {
  ExternalSettings : HostExternalSettings;
  PublicKey : SiaPublicKey }.

Definition host_NetAddress (h : HostDBEntry) := hes_NetAddress (ExternalSettings h).
Definition ContractPrice (h : HostDBEntry) := hes_ContractPrice (ExternalSettings h).
Definition Collateral (h : HostDBEntry) := hes_Collateral (ExternalSettings h).
Definition host_UnlockHash (h : HostDBEntry) := hes_UnlockHash (ExternalSettings h).
Definition WindowSize (h : HostDBEntry) := hes_WindowSize (ExternalSettings h).

Record Allowance := {
  Funds : Currency;
  Hosts : N;
  Period : BlockHeight;
  RenewWindow : BlockHeight }.

(** ** What the other packages provide

    Types, constants and pure functions of packages [types], [crypto] and
    [modules] that the code uses and that are not in the sources at hand. *)
Class Env := {
  Transaction : Type;
  (** [types.Transaction{}] *)
  Transaction_zero : Transaction;
  (** [t.FileContractID(i)] *)
  Transaction_FileContractID : Transaction -> N -> FileContractID;
  (** [uc.UnlockHash()] *)
  UnlockConditions_UnlockHash : UnlockConditions -> UnlockHash;
  (** [types.PostTax(height, payout)] *)
  PostTax : BlockHeight -> Currency -> Currency;
  (** [modules.StoragePriceToConsensus(500000)] *)
  maxPrice : Currency;
  (** [modules.SectorSize], a [uint64] constant *)
  SectorSize : N;
  PublicKeySize : nat;
  SignatureEd25519 : Specifier;
  AcceptResponse : string;
  RPCFormContract : Specifier;
  MaxHostExternalSettingsLen : N;
  BlockSizeLimit : N;
  (** the text of [modules.ErrDuplicateTransactionSet] *)
  ErrDuplicateTransactionSet_text : string }.

Section Contractor.
Context `{E : Env}.

(** [err.Error()] *)
Definition Error (e : error) : string :=
  match e with
  | ErrDuplicateTransactionSet => ErrDuplicateTransactionSet_text
  | errTooExpensive => "host price was too high"
  | errorsNew msg => msg
  end.

(** [Contract] of package [contractor]. *)
Record Contract := {
  IP : NetAddress;
  ID : FileContractID;
  ct_FileContract : FileContract;
  LastRevision : FileContractRevision;
  LastRevisionTxn : Transaction;
  SecretKey : list Byte.byte }.

(** The fields of [Contractor] that contract formation reads and writes;
    its other fields are the collaborators. *)
Record Contractor := {
  contracts : gmap N Contract;
  spentPeriod : Currency;
  spentTotal : Currency;
  cachedAddress : UnlockHash;
  blockHeight : BlockHeight;
  renewHeight : BlockHeight }.

(** ** Requests to the collaborators *)

(** What [encoding.WriteObject] is asked to send. *)
Inductive Obj : Type :=
| ObjString (s : string)
| ObjSpecifier (s : Specifier)
| ObjTxnSet (ts : list Transaction).

Inductive req : Type :=
| MuLock | MuUnlock | MuRLock | MuRUnlock
| WalletNextAddress
| WalletStartTransaction
| BuilderFundSiacoins (b : Builder) (amount : Currency)
| BuilderAddFileContract (b : Builder) (fc : FileContract)
| BuilderSign (b : Builder) (wholeTransaction : bool)
| BuilderDrop (b : Builder)
| TpoolAcceptTransactionSet (ts : list Transaction)
| DialerDialTimeout (addr : NetAddress) (seconds : N)
| ConnSetDeadline (conn : Conn) (seconds : N)
| ConnClose (conn : Conn)
| EncodingWriteObject (conn : Conn) (o : Obj)
| EncodingReadString (conn : Conn) (maxLen : N)
| EncodingReadTxnSet (conn : Conn) (maxLen : N)
| CryptoGenerateKeyPair
| CryptoReadSignedObject (conn : Conn) (maxLen : N) (pk : list Byte.byte)
| BuildCritical (msg : string) (alg : Specifier)
| HdbRandomHosts (n : Z)
| Save (snapshot : Contractor)
| LogPrintln (msg : string) (addr : NetAddress) (err : error).

(** The type of the answer to each request. *)
Definition resp (q : req) : Type :=
  match q with
  | MuLock | MuUnlock | MuRLock | MuRUnlock => unit
  | WalletNextAddress => result UnlockConditions
  | WalletStartTransaction => Builder
  | BuilderFundSiacoins _ _ => option error
  | BuilderAddFileContract _ _ => unit
  | BuilderSign _ _ => result (list Transaction)
  | BuilderDrop _ => unit
  | TpoolAcceptTransactionSet _ => option error
  | DialerDialTimeout _ _ => result Conn
  | ConnSetDeadline _ _ => unit
  | ConnClose _ => unit
  | EncodingWriteObject _ _ => option error
  | EncodingReadString _ _ => result string
  | EncodingReadTxnSet _ _ => result (list Transaction)
  | CryptoGenerateKeyPair => result (list Byte.byte * list Byte.byte)
  | CryptoReadSignedObject _ _ _ => result HostExternalSettings
  | BuildCritical _ _ => option unit
  | HdbRandomHosts _ => list HostDBEntry
  | Save _ => unit
  | LogPrintln _ _ _ => unit
  end.

(** ** Programs *)

(** A program either returns, panics (an index out of range, a division by
    zero), or asks a collaborator and goes on with the answer. *)
Inductive Prog (R : Type) : Type :=
| Ret (r : R)
| Panic
| Vis (q : req) (k : resp q -> Prog R).

Arguments Ret {R} r.
Arguments Panic {R}.
Arguments Vis {R} q k.

Fixpoint bind {A B : Type} (p : Prog A) (f : A -> Prog B) : Prog B :=
  match p with
  | Ret a => f a
  | Panic => Panic
  | Vis q k => Vis q (fun x => bind (k x) f)
  end.

Definition ask (q : req) : Prog (resp q) := Vis q Ret.

(** [defer d] around [p]: [d] runs when [p] returns and when it panics. *)
Fixpoint finally {A : Type} (p : Prog A) (d : Prog unit) : Prog A :=
  match p with
  | Ret a => bind d (fun _ => Ret a)
  | Panic => bind d (fun _ => Panic)
  | Vis q k => Vis q (fun x => finally (k x) d)
  end.

(** One call: the request and the answer it got. *)
Record call : Type := Call { call_req : req; call_resp : resp call_req }.

(** An implementation of all collaborators over a world state [W]. *)
Definition handler (W : Type) : Type := forall q : req, W -> resp q * W.

Fixpoint run {W R : Type} (h : handler W) (p : Prog R) (w : W)
  : option R * W * list call :=
  match p with
  | Ret r => (Some r, w, [])
  | Panic => (None, w, [])
  | Vis q k =>
      let '(x, w1) := h q w in
      let '(r, w2, tr) := run h (k x) w1 in
      (r, w2, Call q x :: tr)
  end.

Definition result_of {W R : Type} (o : option R * W * list call) : option R := o.1.1.
Definition world_of {W R : Type} (o : option R * W * list call) : W := o.1.2.
Definition trace_of {W R : Type} (o : option R * W * list call) : list call := o.2.

End Contractor.

Arguments Ret {E R} r.
Arguments Panic {E R}.
Arguments Vis {E R} q k.

Notation "x <- p ;; k" := (bind p (fun x => k))
  (at level 100, p at next level, right associativity).
Notation "p ;;; k" := (bind p (fun _ => k))
  (at level 100, right associativity).

(** ** The code *)

Section Code.
Context `{E : Env}.

Definition set_cachedAddress (c : Contractor) (a : UnlockHash) : Contractor :=
  {| contracts := contracts c; spentPeriod := spentPeriod c;
     spentTotal := spentTotal c; cachedAddress := a;
     blockHeight := blockHeight c; renewHeight := renewHeight c |}.

Definition set_renewHeight (c : Contractor) (h : BlockHeight) : Contractor :=
  {| contracts := contracts c; spentPeriod := spentPeriod c;
     spentTotal := spentTotal c; cachedAddress := cachedAddress c;
     blockHeight := blockHeight c; renewHeight := h |}.

Definition set_fc_UnlockHash (fc : FileContract) (u : UnlockHash) : FileContract :=
  {| fc_FileSize := fc_FileSize fc; fc_FileMerkleRoot := fc_FileMerkleRoot fc;
     fc_WindowStart := fc_WindowStart fc; fc_WindowEnd := fc_WindowEnd fc;
     fc_Payout := fc_Payout fc;
     fc_ValidProofOutputs := fc_ValidProofOutputs fc;
     fc_MissedProofOutputs := fc_MissedProofOutputs fc;
     fc_UnlockHash := u; fc_RevisionNumber := fc_RevisionNumber fc |}.

(** [verifySettings]: the host's key must be an Ed25519 key of the right
    length, the signed settings are read from the connection, and a host
    that does not accept contracts is refused.  [build.Critical] is a call
    to package [build]: in a debug build it panics ([None]), otherwise it
    returns ([Some tt]) and the code goes on to return its error. *)
Definition verifySettings (conn : Conn) (host : HostDBEntry)
  : Prog (result HostDBEntry) :=
  if negb (String.eqb (Algorithm (PublicKey host)) SignatureEd25519)
     || negb (Nat.eqb (length (Key (PublicKey host))) PublicKeySize)
  then
    critical <- ask (BuildCritical
           "hostdb did not filter out host with wrong signature algorithm:"
           (Algorithm (PublicKey host))) ;;
    match critical with
    | None => Panic
    | Some _ => Ret (inr (errorsNew "host used unsupported signature algorithm"))
    end
  else
    let pk := Key (PublicKey host) in
    r <- ask (CryptoReadSignedObject conn MaxHostExternalSettingsLen pk) ;;
    match r with
    | inr err =>
        Ret (inr (errorsNew
                    (String.append "couldn't read host's settings: " (Error err))))
    | inl recvSettings =>
        if negb (AcceptingContracts recvSettings)
        then Ret (inr (errorsNew "host is not accepting contracts"))
        else Ret (inl {| ExternalSettings := recvSettings;
                         PublicKey := PublicKey host |})
    end.

(** The contract record assembled at the end of [negotiateContract]; the
    two output lists are indexed at 0 and 1, which panics on a shorter
    list. *)
Definition assembleContract (host : HostDBEntry) (fcid : FileContractID)
    (fc : FileContract) (uc : UnlockConditions) (ourSK : list Byte.byte)
  : option Contract :=
  match fc_ValidProofOutputs fc !! 0%nat, fc_ValidProofOutputs fc !! 1%nat,
        fc_MissedProofOutputs fc !! 0%nat, fc_MissedProofOutputs fc !! 1%nat with
  | Some v0, Some v1, Some m0, Some m1 =>
      Some {| IP := host_NetAddress host;
              ID := fcid;
              ct_FileContract := fc;
              LastRevision :=
                {| ParentID := fcid;
                   rev_UnlockConditions := uc;
                   NewRevisionNumber := fc_RevisionNumber fc;
                   NewFileSize := fc_FileSize fc;
                   NewFileMerkleRoot := fc_FileMerkleRoot fc;
                   NewWindowStart := fc_WindowStart fc;
                   NewWindowEnd := fc_WindowEnd fc;
                   NewValidProofOutputs := [v0; v1];
                   NewMissedProofOutputs := [m0; m1];
                   NewUnlockHash := fc_UnlockHash fc |};
              LastRevisionTxn := Transaction_zero;
              SecretKey := ourSK |}
  | _, _, _, _ => None
  end.

(** [negotiateContract].  On an error Go returns [Contract{}] next to it;
    no caller reads that value, and [inr err] stands for the pair. *)
Definition negotiateContract (conn : Conn) (host : HostDBEntry)
    (fc : FileContract) (txnBuilder : Builder) : Prog (result Contract) :=
  (* allow 30 seconds for negotiation *)
  ask (ConnSetDeadline conn 30) ;;;
  (* create our key *)
  kp <- ask CryptoGenerateKeyPair ;;
  match kp with
  | inr err =>
      ask (EncodingWriteObject conn (ObjString "internal error")) ;;;
      Ret (inr (errorsNew
                  (String.append "failed to generate keypair: " (Error err))))
  | inl (ourSK, ourPK) =>
  let ourPublicKey := {| Algorithm := SignatureEd25519; Key := ourPK |} in
  (* create unlock conditions *)
  let uc := {| PublicKeys := [ourPublicKey; PublicKey host];
               SignaturesRequired := 2 |} in
  (* add UnlockHash to file contract *)
  let fc := set_fc_UnlockHash fc (UnlockConditions_UnlockHash uc) in
  (* build transaction containing fc *)
  funded <- ask (BuilderFundSiacoins txnBuilder (fc_Payout fc)) ;;
  match funded with
  | Some err =>
      ask (EncodingWriteObject conn (ObjString "internal error")) ;;;
      Ret (inr err)
  | None =>
  ask (BuilderAddFileContract txnBuilder fc) ;;;
  (* sign the txn *)
  signed <- ask (BuilderSign txnBuilder false) ;;
  match signed with
  | inr err => Ret (inr err)
  | inl signedTxnSet =>
  (* calculate contract ID: signedTxnSet[len(signedTxnSet)-1] *)
  match last signedTxnSet with
  | None => Panic
  | Some lastTxn =>
  let fcid := Transaction_FileContractID lastTxn 0 in
  (* send acceptance and txn signed by us *)
  w1 <- ask (EncodingWriteObject conn (ObjString AcceptResponse)) ;;
  match w1 with
  | Some err =>
      Ret (inr (errorsNew
                  (String.append "couldn't send acceptance: " (Error err))))
  | None =>
  w2 <- ask (EncodingWriteObject conn (ObjTxnSet signedTxnSet)) ;;
  match w2 with
  | Some err =>
      Ret (inr (errorsNew
                  (String.append "couldn't send the contract signed by us: "
                                 (Error err))))
  | None =>
  (* read acceptance and txn signed by host *)
  r1 <- ask (EncodingReadString conn 128) ;;
  match r1 with
  | inr err =>
      Ret (inr (errorsNew
                  (String.append
                     "couldn't read the host's response to our proposed contract: "
                     (Error err))))
  | inl response =>
  if negb (String.eqb response AcceptResponse)
  then Ret (inr (errorsNew
                   (String.append "host rejected proposed contract: " response)))
  else
  r2 <- ask (EncodingReadTxnSet conn BlockSizeLimit) ;;
  match r2 with
  | inr err =>
      Ret (inr (errorsNew
                  (String.append "couldn't read the host's updated contract: "
                                 (Error err))))
  | inl hostTxnSet =>
  (* submit to blockchain *)
  accepted <- ask (TpoolAcceptTransactionSet hostTxnSet) ;;
  let err :=
    match accepted with
    | Some e => if is_duplicate e then None else Some e
    | None => None
    end in
  match err with
  | Some e => Ret (inr e)
  | None =>
  (* create host contract *)
  match assembleContract host fcid fc uc ourSK with
  | None => Panic
  | Some contract => Ret (inl contract)
  end end end end end end end end end end.

(** The terms [newContract] proposes, from the host's advertised price
    and collateral, the height read under the lock and the address. *)
Definition newFileContract (host : HostDBEntry) (filesize : N)
    (endHeight height : BlockHeight) (ourAddress : UnlockHash) : FileContract :=
  let duration := endHeight - height in
  let renterCost :=
    Currency_Mul (Currency_Mul (ContractPrice host) (NewCurrency64 filesize))
                 (NewCurrency64 duration) in
  let payout := Currency_Add renterCost (Collateral host) in
  {| fc_FileSize := 0;
     fc_FileMerkleRoot := 0;
     fc_WindowStart := endHeight;
     fc_WindowEnd := add64 endHeight (WindowSize host);
     fc_Payout := payout;
     fc_UnlockHash := 0;
     fc_RevisionNumber := 0;
     fc_ValidProofOutputs :=
       [ {| Value := PostTax height renterCost; sco_UnlockHash := ourAddress |};
         {| Value := ZeroCurrency; sco_UnlockHash := host_UnlockHash host |} ];
     fc_MissedProofOutputs :=
       [ {| Value := PostTax height renterCost; sco_UnlockHash := ourAddress |};
         {| Value := ZeroCurrency; sco_UnlockHash := 0 |} ] |}.

(** The update of the contractor made under the lock after a successful
    negotiation. *)
Definition recordContract (c : Contractor) (contract : Contract)
    (fc : FileContract) : Contractor :=
  {| contracts := <[ID contract := contract]> (contracts c);
     spentPeriod := Currency_Add (spentPeriod c) (fc_Payout fc);
     spentTotal := Currency_Add (spentTotal c) (fc_Payout fc);
     cachedAddress := 0;
     blockHeight := blockHeight c;
     renewHeight := renewHeight c |}.

(** [newContract]: the result and the contractor as the call leaves it. *)
Definition newContract (c : Contractor) (host : HostDBEntry) (filesize : N)
    (endHeight : BlockHeight) : Prog (result Contract * Contractor) :=
  (* reject hosts that are too expensive *)
  if (0 <? Currency_Cmp (ContractPrice host) maxPrice)%Z
  then Ret (inr errTooExpensive, c)
  else
  (* get an address to use for negotiation *)
  ask MuLock ;;;
  addr <- (if cachedAddress c =? 0
           then
             a <- ask WalletNextAddress ;;
             match a with
             | inr err => ask MuUnlock ;;; Ret (inr err)
             | inl uc =>
                 Ret (inl (set_cachedAddress c (UnlockConditions_UnlockHash uc)))
             end
           else Ret (inl c)) ;;
  match addr with
  | inr err => Ret (inr err, c)
  | inl c =>
  let ourAddress := cachedAddress c in
  let height := blockHeight c in
  ask MuUnlock ;;;
  if endHeight <=? height
  then Ret (inr (errorsNew "contract cannot end in the past"), c)
  else
  (* create file contract *)
  let fc := newFileContract host filesize endHeight height ourAddress in
  (* initiate connection *)
  dialed <- ask (DialerDialTimeout (host_NetAddress host) 15) ;;
  match dialed with
  | inr err => Ret (inr err, c)
  | inl conn =>
  finally
    (w <- ask (EncodingWriteObject conn (ObjSpecifier RPCFormContract)) ;;
     match w with
     | Some err => Ret (inr err, c)
     | None =>
     (* verify the host's settings and confirm its identity *)
     verified <- verifySettings conn host ;;
     match verified with
     | inr err => Ret (inr err, c)
     | inl host =>
     (* create transaction builder *)
     txnBuilder <- ask WalletStartTransaction ;;
     (* execute negotiation protocol *)
     negotiated <- negotiateContract conn host fc txnBuilder ;;
     match negotiated with
     | inr err =>
         ask (BuilderDrop txnBuilder) ;;; (* return unused outputs to wallet *)
         Ret (inr err, c)
     | inl contract =>
         ask MuLock ;;;
         let c := recordContract c contract fc in
         ask (Save c) ;;;
         ask MuUnlock ;;;
         Ret (inl contract, c)
     end end end)
    (ask (ConnClose conn))
  end end.

(** The arithmetic at the head of [formContracts]: from the allowance and
    the sampled hosts to the size of each contract. *)
Inductive planned : Type :=
| PlanPanic
| PlanError (err : error)
| PlanFilesize (filesize : N).

Definition sumPrices (hosts : list HostDBEntry) : Currency :=
  fold_left (fun sum h => Currency_Add sum (ContractPrice h)) hosts ZeroCurrency.

Definition planFilesize (a : Allowance) (hosts : list HostDBEntry) : planned :=
  if N.of_nat (length hosts) <? Hosts a
  then PlanError (errorsNew "not enough hosts")
  else
  (* Calculate average host price *)
  match Currency_Div (sumPrices hosts) (NewCurrency64 (N.of_nat (length hosts))) with
  | None => PlanPanic
  | Some avgPrice =>
  (* Check that allowance is sufficient to store at least one sector per
     host for the specified duration. *)
  let costPerSector :=
    Currency_Mul
      (Currency_Mul (Currency_Mul avgPrice (NewCurrency64 (Hosts a)))
                    (NewCurrency64 SectorSize))
      (NewCurrency64 (Period a)) in
  if (Currency_Cmp (Funds a) costPerSector <? 0)%Z
  then PlanError (errorsNew "insufficient funds")
  else
  (* Calculate the filesize of the contracts by using the average host
     price and rounding down to the nearest sector. *)
  match Currency_Div (Funds a) costPerSector with
  | None => PlanPanic
  | Some quotient =>
  match Currency_Uint64 quotient with
  | None =>
      PlanError (errorsNew "allowance resulted in unexpectedly large contract size")
  | Some numSectors => PlanFilesize (mul64 numSectors SectorSize)
  end end end.

(** The loop of [formContracts] over the sampled hosts.  [numContracts] is
    incremented at the end of every iteration. *)
Fixpoint formLoop (hosts : list HostDBEntry) (a : Allowance) (filesize : N)
    (endHeight : BlockHeight) (numContracts : N) (c : Contractor)
  : Prog Contractor :=
  match hosts with
  | [] => Ret c
  | h :: rest =>
      rc <- newContract c h filesize endHeight ;;
      let '(r, c) := rc in
      match r with
      | inr err =>
          ask (LogPrintln "WARN: failed to negotiate contract:"
                          (host_NetAddress h) err)
      | inl _ => Ret tt
      end ;;;
      let numContracts := add64 numContracts 1 in
      if Hosts a <=? numContracts
      then Ret c
      else formLoop rest a filesize endHeight numContracts c
  end.

(** [formContracts]: [None] is Go's [nil] error. *)
Definition formContracts (c : Contractor) (a : Allowance)
  : Prog (option error * Contractor) :=
  (* Get hosts. *)
  hosts <- ask (HdbRandomHosts (int_of_uint64 (mul64 2 (Hosts a)))) ;;
  match planFilesize a hosts with
  | PlanPanic => Panic
  | PlanError err => Ret (Some err, c)
  | PlanFilesize filesize =>
  (* Form contracts with each host. *)
  ask MuRLock ;;;
  let endHeight := add64 (blockHeight c) (Period a) in
  ask MuRUnlock ;;;
  c <- formLoop hosts a filesize endHeight 0 c ;;
  ask MuLock ;;;
  let c := set_renewHeight c endHeight in
  ask MuUnlock ;;;
  Ret (None, c)
  end.

End Code.

(** ** Reading a run *)

Section Traces.
Context `{E : Env}.

(** The requests of a trace, in order. *)
Definition reqs (tr : list call) : list req := map call_req tr.

(** The answers the transaction pool gave in a trace. *)
Definition pool_answer (c : call) : option (option error) :=
  match c with
  | Call q x =>
      match q return resp q -> option (option error) with
      | TpoolAcceptTransactionSet _ => fun a => Some a
      | _ => fun _ => None
      end x
  end.

Definition pool_answers (tr : list call) : list (option error) :=
  omap pool_answer tr.

(** The transaction sets [Sign] returned in a trace. *)
Definition sign_answer (c : call) : option (result (list Transaction)) :=
  match c with
  | Call q x =>
      match q return resp q -> option (result (list Transaction)) with
      | BuilderSign _ _ => fun a => Some a
      | _ => fun _ => None
      end x
  end.

Definition sign_answers (tr : list call) : list (result (list Transaction)) :=
  omap sign_answer tr.

(** The addresses [NextAddress] handed out in a trace. *)
Definition reserved (c : call) : option UnlockHash :=
  match c with
  | Call q x =>
      match q return resp q -> option UnlockHash with
      | WalletNextAddress => fun a =>
          match a with
          | inl uc => Some (UnlockConditions_UnlockHash uc)
          | inr _ => None
          end
      | _ => fun _ => None
      end x
  end.

Definition reserved_addresses (tr : list call) : list UnlockHash := omap reserved tr.

(** The answers [build.Critical] gave in a trace: [None] where it
    panicked. *)
Definition critical_answer (c : call) : option (option unit) :=
  match c with
  | Call q x =>
      match q return resp q -> option (option unit) with
      | BuildCritical _ _ => fun a => Some a
      | _ => fun _ => None
      end x
  end.

Definition critical_answers (tr : list call) : list (option unit) :=
  omap critical_answer tr.

(** The errors [NextAddress] answered with in a trace. *)
Definition address_error (c : call) : option error :=
  match c with
  | Call q x =>
      match q return resp q -> option error with
      | WalletNextAddress => fun a =>
          match a with
          | inl _ => None
          | inr e => Some e
          end
      | _ => fun _ => None
      end x
  end.

Definition address_errors (tr : list call) : list error := omap address_error tr.

(** The last [n] requests of a trace. *)
Definition last_reqs (n : nat) (tr : list call) : list req :=
  drop (length tr - n)%nat (reqs tr).

End Traces.

(** ** Running a program against collaborators, as a predicate transformer *)

Section Specs.
Context `{E : Env}.

(** [wpr h p w Q]: the run of [p] against [h] from [w] ends in a result,
    a world and a trace that satisfy [Q]. *)
Fixpoint wpr {W R : Type} (h : handler W) (p : Prog R) (w : W)
    (Q : option R -> W -> list call -> Prop) : Prop :=
  match p with
  | Ret r => Q (Some r) w []
  | Panic => Q None w []
  | Vis q k =>
      wpr h (k (h q w).1) (h q w).2
          (fun r w' tr => Q r w' (Call q (h q w).1 :: tr))
  end.

(** The error of [newContract] for an end height that is not in the
    future. *)
Definition errPast : error := errorsNew "contract cannot end in the past".

(** The error of [formContracts] for a sector count beyond 64 bits. *)
Definition errTooLarge : error :=
  errorsNew "allowance resulted in unexpectedly large contract size".

(** [renterCost] of [newContract]. *)
Definition renterCost (host : HostDBEntry) (filesize : N)
    (endHeight height : BlockHeight) : Currency :=
  Currency_Mul (Currency_Mul (ContractPrice host) (NewCurrency64 filesize))
               (NewCurrency64 (endHeight - height)).

(** The address a call of [newContract] works with: the cached one, or
    else the one [NextAddress] handed out during the call (0 if none). *)
Definition address_used (c : Contractor) (tr : list call) : UnlockHash :=
  if cachedAddress c =? 0 then hd 0 (reserved_addresses tr) else cachedAddress c.

(** Every draft that was asked for funds is dropped, and only the closing
    of the connection follows. *)
Definition drafts_dropped (tr : list call) : Prop :=
  forall b amount, In (BuilderFundSiacoins b amount) (reqs tr) ->
    exists conn, last_reqs 2 tr = [BuilderDrop b; ConnClose conn].

(** What a run of [newContract] can end in. *)
Definition newContract_post (c : Contractor) (host : HostDBEntry) (fs : N)
    (eh : BlockHeight) (r : option (result Contract * Contractor))
    (tr : list call) : Prop :=
  match r with
  | Some (inl contract, c') =>
      exists a u conn,
        (a = cachedAddress c /\ a <> 0 /\ reserved_addresses tr = []
         \/ cachedAddress c = 0 /\ reserved_addresses tr = [a]) /\
        ContractPrice host <= maxPrice /\
        blockHeight c < eh /\
        ct_FileContract contract =
          set_fc_UnlockHash (newFileContract host fs eh (blockHeight c) a) u /\
        c' = recordContract c contract
               (newFileContract host fs eh (blockHeight c) a) /\
        last_reqs 4 tr = [MuLock; Save c'; MuUnlock; ConnClose conn] /\
        (pool_answers tr = [None] \/
         pool_answers tr = [Some ErrDuplicateTransactionSet])
  | Some (inr err, c') =>
      (maxPrice < ContractPrice host /\ err = errTooExpensive /\ c' = c /\ tr = [])
      \/ (ContractPrice host <= maxPrice /\ cachedAddress c = 0 /\
          reserved_addresses tr = [] /\ c' = c /\
          reqs tr = [MuLock; WalletNextAddress; MuUnlock])
      \/ (ContractPrice host <= maxPrice /\
          exists a,
            (a = cachedAddress c /\ a <> 0 /\ reserved_addresses tr = []
             \/ cachedAddress c = 0 /\ reserved_addresses tr = [a]) /\
            c' = set_cachedAddress c a /\
            (eh <= blockHeight c -> err = errPast) /\
            drafts_dropped tr)
  | None =>
      blockHeight c < eh /\
      (In (inl []) (sign_answers tr) \/ In None (critical_answers tr))
  end.

(** What a run of [negotiateContract] can end in. *)
Definition negotiateContract_post (host : HostDBEntry) (fc : FileContract)
    (r : option (result Contract)) (tr : list call) : Prop :=
  match r with
  | Some (inl contract) =>
      (exists u, ct_FileContract contract = set_fc_UnlockHash fc u) /\
      IP contract = host_NetAddress host /\
      NewValidProofOutputs (LastRevision contract) = take 2 (fc_ValidProofOutputs fc) /\
      NewMissedProofOutputs (LastRevision contract) = take 2 (fc_MissedProofOutputs fc) /\
      (pool_answers tr = [None] \/
       pool_answers tr = [Some ErrDuplicateTransactionSet])
  | Some (inr err) =>
      pool_answers tr = [] \/
      (pool_answers tr = [Some err] /\ err <> ErrDuplicateTransactionSet)
  | None =>
      (In (inl []) (sign_answers tr) /\ pool_answers tr = []) \/
      (((length (fc_ValidProofOutputs fc) < 2)%nat \/
        (length (fc_MissedProofOutputs fc) < 2)%nat) /\
       (pool_answers tr = [None] \/
        pool_answers tr = [Some ErrDuplicateTransactionSet]))
  end.

(** The update [newContract] makes after a successful formation, seen from
    outside: the contract is in the map under its ID, both counters grew by
    the payout, the cached address is empty, the rest is as before, and the
    call ended with lock, save of the new state, unlock, close. *)
Definition formation_recorded (c c' : Contractor) (contract : Contract)
    (tr : list call) : Prop :=
  contracts c' = <[ID contract := contract]> (contracts c) /\
  spentPeriod c' = spentPeriod c + fc_Payout (ct_FileContract contract) /\
  spentTotal c' = spentTotal c + fc_Payout (ct_FileContract contract) /\
  cachedAddress c' = 0 /\
  blockHeight c' = blockHeight c /\
  renewHeight c' = renewHeight c /\
  exists conn, last_reqs 4 tr = [MuLock; Save c'; MuUnlock; ConnClose conn].

(** The mean price as the code computes it: the sum divided by the number
    of hosts, rounded down. *)
Definition avgPrice (hosts : list HostDBEntry) : Currency :=
  sumPrices hosts / N.of_nat (length hosts).

(** [costPerSector] of [formContracts]. *)
Definition costPerSector (a : Allowance) (hosts : list HostDBEntry) : Currency :=
  avgPrice hosts * Hosts a * SectorSize * Period a.

(** The filesize as the specification words it: with [M] the arithmetic
    mean of the prices, [floor (F / (M * H * U * P)) * U], over the
    rationals. *)
Definition meanPrice (hosts : list HostDBEntry) : Q :=
  Z.of_N (sumPrices hosts) # Pos.of_nat (length hosts).

Definition spec_filesize (a : Allowance) (hosts : list HostDBEntry) : Z :=
  (Qfloor (inject_Z (Z.of_N (Funds a))
           / (meanPrice hosts * inject_Z (Z.of_N (Hosts a))
              * inject_Z (Z.of_N SectorSize) * inject_Z (Z.of_N (Period a))))
   * Z.of_N SectorSize)%Z.

End Specs.

(** ** A concrete set of collaborators

    One implementation of the interfaces, used to run the code on concrete
    inputs: a wallet with an available and a reserved balance, a pool that
    remembers what it accepted, a dialer that cannot reach one address. *)

Module Demo.

#[export] Instance env : Env := {|
  Transaction := N;
  Transaction_zero := 0;
  Transaction_FileContractID := fun t i => 1000 * t + i;
  UnlockConditions_UnlockHash := fun uc =>
    100 + SignaturesRequired uc + N.of_nat (length (PublicKeys uc));
  PostTax := fun _ payout => payout - payout * 39 / 1000;
  maxPrice := 115740740740740;
  SectorSize := 4194304;
  PublicKeySize := 32;
  SignatureEd25519 := "ed25519"%string;
  AcceptResponse := "accept"%string;
  RPCFormContract := "FormContract"%string;
  MaxHostExternalSettingsLen := 16000;
  BlockSizeLimit := 2000000;
  ErrDuplicateTransactionSet_text :=
    "transaction set contains only duplicate transactions"%string |}.

Record World := {
  available : N;              (* wallet funds not reserved by a draft *)
  held : N;                   (* funds reserved by the current draft *)
  pool : list (list N);       (* transaction sets the pool holds *)
  hostReply : string;         (* the token the host answers a proposal with *)
  candidates : list HostDBEntry }.

Definition set_funds (w : World) (a r : N) : World :=
  {| available := a; held := r; pool := pool w; hostReply := hostReply w;
     candidates := candidates w |}.

Definition add_pool (w : World) (ts : list N) : World :=
  {| available := available w; held := held w; pool := ts :: pool w;
     hostReply := hostReply w; candidates := candidates w |}.

Definition in_pool (ts : list N) (w : World) : bool :=
  existsb (fun s => bool_decide (s = ts)) (pool w).

Definition walletKey : SiaPublicKey :=
  {| Algorithm := "ed25519"%string; Key := repeat Byte.x0a 32 |}.

Definition settings (price collateral : Currency) (addr : NetAddress)
  : HostExternalSettings :=
  {| AcceptingContracts := true; hes_NetAddress := addr;
     hes_ContractPrice := price; hes_Collateral := collateral;
     hes_UnlockHash := 77; hes_WindowSize := 144 |}.

Definition hostAt (price collateral : Currency) (addr : NetAddress) : HostDBEntry :=
  {| ExternalSettings := settings price collateral addr;
     PublicKey := {| Algorithm := "ed25519"%string; Key := repeat Byte.x01 32 |} |}.

Definition collab : handler World := fun q =>
  match q as q0 return World -> resp q0 * World with
  | MuLock | MuUnlock | MuRLock | MuRUnlock => fun w => (tt, w)
  | WalletNextAddress => fun w =>
      (inl {| PublicKeys := [walletKey]; SignaturesRequired := 1 |}, w)
  | WalletStartTransaction => fun w => (1, w)
  | BuilderFundSiacoins _ amount => fun w =>
      if amount <=? available w
      then (None, set_funds w (available w - amount) (held w + amount))
      else (Some (errorsNew "insufficient balance"%string), w)
  | BuilderAddFileContract _ _ => fun w => (tt, w)
  | BuilderSign _ _ => fun w => (inl [7], w)
  | BuilderDrop _ => fun w => (tt, set_funds w (available w + held w) 0)
  | TpoolAcceptTransactionSet ts => fun w =>
      if in_pool ts w
      then (Some ErrDuplicateTransactionSet, w)
      else (None, add_pool w ts)
  | DialerDialTimeout addr _ => fun w =>
      if String.eqb addr "offline:9982"%string
      then (inr (errorsNew "dial timeout"%string), w)
      else (inl 1, w)
  | ConnSetDeadline _ _ => fun w => (tt, w)
  | ConnClose _ => fun w => (tt, w)
  | EncodingWriteObject _ _ => fun w => (None, w)
  | EncodingReadString _ _ => fun w => (inl (hostReply w), w)
  | EncodingReadTxnSet _ _ => fun w => (inl [8], w)
  | CryptoGenerateKeyPair => fun w => (inl (repeat Byte.x11 64, repeat Byte.x12 32), w)
  | CryptoReadSignedObject _ _ _ => fun w =>
      (inl (settings 10 1000 "host:9982"%string), w)
  | BuildCritical _ _ => fun w => (Some tt, w)
  | HdbRandomHosts n => fun w => (take (Z.to_nat n) (candidates w), w)
  | Save _ => fun w => (tt, w)
  | LogPrintln _ _ _ => fun w => (tt, w)
  end.

Definition world0 : World :=
  {| available := 10 ^ 30; held := 0; pool := []; hostReply := "accept"%string;
     candidates := [] |}.

(** A host that answers the proposal with a rejection. *)
Definition world_reject : World :=
  {| available := 10 ^ 30; held := 0; pool := [];
     hostReply := "no thanks"%string; candidates := [] |}.

(** A pool that already holds the set the host will send back. *)
Definition world_dup : World :=
  {| available := 10 ^ 30; held := 0; pool := [[8]];
     hostReply := "accept"%string; candidates := [] |}.

Definition contractor0 : Contractor :=
  {| contracts := ∅; spentPeriod := 5; spentTotal := 9; cachedAddress := 0;
     blockHeight := 100; renewHeight := 0 |}.

Definition goodHost : HostDBEntry := hostAt 10 1000 "host:9982"%string.
Definition offlineHost : HostDBEntry := hostAt 10 1000 "offline:9982"%string.
Definition expensiveHost : HostDBEntry := hostAt (10 ^ 15) 1000 "dear:9982"%string.

Definition twoOutputs : FileContract :=
  newFileContract goodHost 4194304 200 100 103.

(** Two sampled candidates, the first above the price ceiling. *)
Definition world_two : World :=
  {| available := 10 ^ 30; held := 0; pool := [];
     hostReply := "accept"%string;
     candidates := [expensiveHost; goodHost] |}.

Definition allowance1 : Allowance :=
  {| Funds := 10 ^ 27; Hosts := 1; Period := 100; RenewWindow := 10 |}.

Definition allowance2 : Allowance :=
  {| Funds := 10 ^ 12; Hosts := 2; Period := 100; RenewWindow := 10 |}.

Definition threeHosts : list HostDBEntry := [goodHost; goodHost; offlineHost].

(** Prices 1 and 2: a mean of 3/2. *)
Definition unevenHosts : list HostDBEntry :=
  [hostAt 1 0 "a:9982"%string; hostAt 2 0 "b:9982"%string].

Definition evenHosts : list HostDBEntry :=
  [hostAt 1 0 "a:9982"%string; hostAt 1 0 "b:9982"%string].

Definition allowance_small : Allowance :=
  {| Funds := 3 * 2 ^ 23; Hosts := 1; Period := 2; RenewWindow := 1 |}.

Definition allowance_wrap : Allowance :=
  {| Funds := 2 ^ 65; Hosts := 1; Period := 2; RenewWindow := 1 |}.

End Demo.

(** ** More ways to read a run *)

Section MoreTraces.
Context `{E : Env}.

(** The states handed to [save] in a trace. *)
Definition saved (q : req) : option Contractor :=
  match q with Save c => Some c | _ => None end.

Definition saves (tr : list call) : list Contractor := omap saved (reqs tr).

(** The connections the dialer handed out in a trace. *)
Definition dial_answer (c : call) : option Conn :=
  match c with
  | Call q x =>
      match q return resp q -> option Conn with
      | DialerDialTimeout _ _ => fun a =>
          match a with inl conn => Some conn | inr _ => None end
      | _ => fun _ => None
      end x
  end.

Definition dialed (tr : list call) : list Conn := omap dial_answer tr.

(** The signed settings read from the host in a trace. *)
Definition settings_answer (c : call) : option HostExternalSettings :=
  match c with
  | Call q x =>
      match q return resp q -> option HostExternalSettings with
      | CryptoReadSignedObject _ _ _ => fun a =>
          match a with inl s => Some s | inr _ => None end
      | _ => fun _ => None
      end x
  end.

Definition settings_read (tr : list call) : list HostExternalSettings :=
  omap settings_answer tr.

(** The response tokens read from the host in a trace. *)
Definition response_answer (c : call) : option string :=
  match c with
  | Call q x =>
      match q return resp q -> option string with
      | EncodingReadString _ _ => fun a =>
          match a with inl s => Some s | inr _ => None end
      | _ => fun _ => None
      end x
  end.

Definition host_responses (tr : list call) : list string := omap response_answer tr.

(** The transaction sets read from the host in a trace. *)
Definition txnset_answer (c : call) : option (list Transaction) :=
  match c with
  | Call q x =>
      match q return resp q -> option (list Transaction) with
      | EncodingReadTxnSet _ _ => fun a =>
          match a with inl ts => Some ts | inr _ => None end
      | _ => fun _ => None
      end x
  end.

Definition host_txn_sets (tr : list call) : list (list Transaction) :=
  omap txnset_answer tr.

(** The answers [FundSiacoins] gave in a trace. *)
Definition fund_answer (c : call) : option (option error) :=
  match c with
  | Call q x =>
      match q return resp q -> option (option error) with
      | BuilderFundSiacoins _ _ => fun a => Some a
      | _ => fun _ => None
      end x
  end.

Definition fund_answers (tr : list call) : list (option error) := omap fund_answer tr.

(** The public keys of the key pairs generated in a trace. *)
Definition keypair_answer (c : call) : option (list Byte.byte) :=
  match c with
  | Call q x =>
      match q return resp q -> option (list Byte.byte) with
      | CryptoGenerateKeyPair => fun a =>
          match a with inl (_, pk) => Some pk | inr _ => None end
      | _ => fun _ => None
      end x
  end.

Definition generated_keys (tr : list call) : list (list Byte.byte) :=
  omap keypair_answer tr.

(** The lock discipline of a sequence of requests, read from left to
    right with [held] telling whether the mutex is held: lock and unlock
    alternate and the sequence ends unlocked; the wallet's address counter
    and [save] are used only while the mutex is held; everything else (the
    network, the builder, the pool, the host database, the logger) only
    while it is not. *)
Fixpoint lock_ok (held : bool) (l : list req) : bool :=
  match l with
  | [] => negb held
  | q :: l' =>
      match q with
      | MuLock | MuRLock => negb held && lock_ok true l'
      | MuUnlock | MuRUnlock => held && lock_ok false l'
      | WalletNextAddress | Save _ => held && lock_ok held l'
      | _ => negb held && lock_ok held l'
      end
  end.

(** The mutex of the contractor as a sequence of requests drives it: free,
    held by a reader, or held by a writer. *)
Inductive mutex : Type :=
| Free
| ReadHeld
| WriteHeld.

(** The same discipline with the two kinds of lock kept apart: [RLock] is
    released by [RUnlock] only and [Lock] by [Unlock] only, no lock is taken
    while one is held, the wallet's [NextAddress] and [save] need the write
    lock, nothing else is called while any lock is held, and no lock is left
    held at the end. *)
Fixpoint rw_ok (m : mutex) (l : list req) : bool :=
  match l with
  | [] => match m with Free => true | _ => false end
  | q :: l' =>
      match q with
      | MuLock => match m with Free => rw_ok WriteHeld l' | _ => false end
      | MuUnlock => match m with WriteHeld => rw_ok Free l' | _ => false end
      | MuRLock => match m with Free => rw_ok ReadHeld l' | _ => false end
      | MuRUnlock => match m with ReadHeld => rw_ok Free l' | _ => false end
      | WalletNextAddress | Save _ =>
          match m with WriteHeld => rw_ok WriteHeld l' | _ => false end
      | _ => match m with Free => rw_ok Free l' | _ => false end
      end
  end.

(** The world the collaborators are in after answering the requests [qs],
    one after the other. *)
Fixpoint world_after {W : Type} (h : handler W) (qs : list req) (w : W) : W :=
  match qs with
  | [] => w
  | q :: qs' => world_after h qs' (h q w).2
  end.

(** How a formation pass may change the contractor: the heights stay, both
    spending counters grow by the same amount, no contract ID is lost. *)
Definition spend_grows (c c' : Contractor) : Prop :=
  blockHeight c' = blockHeight c /\
  renewHeight c' = renewHeight c /\
  (exists d, spentPeriod c' = spentPeriod c + d /\
             spentTotal c' = spentTotal c + d) /\
  dom (contracts c) ⊆ dom (contracts c').

(** The last revision of a contract repeats its terms. *)
Definition revision_mirrors (contract : Contract) : Prop :=
  ParentID (LastRevision contract) = ID contract /\
  NewRevisionNumber (LastRevision contract)
    = fc_RevisionNumber (ct_FileContract contract) /\
  NewFileSize (LastRevision contract) = fc_FileSize (ct_FileContract contract) /\
  NewFileMerkleRoot (LastRevision contract)
    = fc_FileMerkleRoot (ct_FileContract contract) /\
  NewWindowStart (LastRevision contract)
    = fc_WindowStart (ct_FileContract contract) /\
  NewWindowEnd (LastRevision contract) = fc_WindowEnd (ct_FileContract contract) /\
  NewValidProofOutputs (LastRevision contract)
    = take 2 (fc_ValidProofOutputs (ct_FileContract contract)) /\
  NewMissedProofOutputs (LastRevision contract)
    = take 2 (fc_MissedProofOutputs (ct_FileContract contract)) /\
  NewUnlockHash (LastRevision contract)
    = fc_UnlockHash (ct_FileContract contract).

(** What [newContract] persists and what a failure leaves alone. *)
Definition persist_post (c : Contractor)
    (r : option (result Contract * Contractor)) (tr : list call) : Prop :=
  match r with
  | Some (inl _, c') => saves tr = [c']
  | Some (inr _, c') =>
      saves tr = [] /\
      contracts c' = contracts c /\
      spentPeriod c' = spentPeriod c /\
      spentTotal c' = spentTotal c /\
      blockHeight c' = blockHeight c /\
      renewHeight c' = renewHeight c
  | None => saves tr = []
  end.

(** Where the parts of a formed contract come from: the address and the
    acceptance from the settings verified on the connection, the renter's
    key from the key pair generated for this contract, the window from the
    host entry [newContract] was given. *)
Definition verified_post (host : HostDBEntry) (eh : BlockHeight)
    (r : option (result Contract * Contractor)) (tr : list call) : Prop :=
  match r with
  | Some (inl contract, _) =>
      exists s pk,
        settings_read tr = [s] /\
        AcceptingContracts s = true /\
        generated_keys tr = [pk] /\
        IP contract = hes_NetAddress s /\
        rev_UnlockConditions (LastRevision contract)
          = {| PublicKeys := [{| Algorithm := SignatureEd25519; Key := pk |};
                              PublicKey host];
               SignaturesRequired := 2 |} /\
        fc_UnlockHash (ct_FileContract contract)
          = UnlockConditions_UnlockHash (rev_UnlockConditions (LastRevision contract)) /\
        fc_WindowStart (ct_FileContract contract) = eh /\
        fc_WindowEnd (ct_FileContract contract) = add64 eh (WindowSize host) /\
        fc_FileSize (ct_FileContract contract) = 0 /\
        fc_RevisionNumber (ct_FileContract contract) = 0
  | _ => True
  end.

(** The contract [negotiateContract] assembles. *)
Definition assembled_post (r : option (result Contract)) (tr : list call) : Prop :=
  match r with
  | Some (inl contract) =>
      revision_mirrors contract /\
      LastRevisionTxn contract = Transaction_zero /\
      exists signed t,
        sign_answers tr = [inl signed] /\
        last signed = Some t /\
        ID contract = Transaction_FileContractID t 0
  | _ => True
  end.

(** The three errors the arithmetic of [formContracts] can end in. *)
Definition errNotEnoughHosts : error := errorsNew "not enough hosts".
Definition errInsufficientFunds : error := errorsNew "insufficient funds".

End MoreTraces.

(** ** The peer list of the gateway *)

Module Gateway.

(** [network.Address] is a string type; [g.peers] is a
    [map[network.Address]struct{}], a finite set of addresses. *)
Definition Address := string.

Definition errAlreadyAdded : error := errorsNew "peer already added".
Definition errNoRecord : error := errorsNew "no record of that peer".

(** [addPeer]: the error ([None] is [nil]) and the peers afterwards. *)
Definition addPeer (peers : gset string) (peer : Address)
  : option error * gset string :=
  if bool_decide (peer ∈ peers)
  then (Some errAlreadyAdded, peers)
  else (None, {[peer]} ∪ peers).

(** [removePeer]. *)
Definition removePeer (peers : gset string) (peer : Address)
  : option error * gset string :=
  if negb (bool_decide (peer ∈ peers))
  then (Some errNoRecord, peers)
  else (None, peers ∖ {[peer]}).

(** What [randomPeer] can end in. *)
Inductive picked : Type :=
| Picked (peer : Address)
| ErrNoPeers
| PickPanic.

(** The loop of [randomPeer] over the peers in the order the map yields
    them. *)
Fixpoint pick (order : list Address) (r : nat) : picked :=
  match order with
  | [] => ErrNoPeers
  | peer :: rest =>
      match r with
      | O => Picked peer
      | S r' => pick rest r'
      end
  end.

(** [randomPeer].  [Intn] is [rand.Intn], [None] where it panics; [order]
    is the order in which the range over [g.peers] yields the peers, so
    its length is [len(g.peers)]. *)
Definition randomPeer (Intn : nat -> option nat) (order : list Address) : picked :=
  match Intn (length order) with
  | None => PickPanic
  | Some r => pick order r
  end.

(** What [rand.Intn] promises: a number below [n], and a panic for
    [n <= 0]. *)
Definition Intn_contract (Intn : nat -> option nat) : Prop :=
  Intn 0%nat = None /\
  forall n, (0 < n)%nat -> exists r, Intn n = Some r /\ (r < n)%nat.

(** The loop of [load]: [g.addPeer(peer)] for each peer, the error
    dropped. *)
Definition addPeers (peers : gset string) (loaded : list Address) : gset string :=
  fold_left (fun ps peer => (addPeer ps peer).2) loaded peers.

(** [load].  [readFile] is what [ioutil.ReadFile(filename)] returned and
    [unmarshal] what [encoding.Unmarshal] makes of the contents. *)
Definition load (readFile : result (list Byte.byte))
    (unmarshal : list Byte.byte -> result (list Address))
    (peers : gset string) : option error * gset string :=
  match readFile with
  | inr err => (Some err, peers)
  | inl contents =>
      match unmarshal contents with
      | inr err => (Some err, peers)
      | inl loaded => (None, addPeers peers loaded)
      end
  end.

(** A generator that always picks the last index, for concrete runs. *)
Definition lastIndex (n : nat) : option nat :=
  match n with O => None | S m => Some m end.

End Gateway.

(** ** More concrete inputs *)

Module Cases.
Import Demo.

(** A host whose key is not an Ed25519 key. *)
Definition badKeyHost : HostDBEntry :=
  {| ExternalSettings := settings 10 1000 "odd:9982"%string;
     PublicKey := {| Algorithm := "rsa"%string; Key := repeat Byte.x01 32 |} |}.

(** A wallet without funds. *)
Definition world_poor : World :=
  {| available := 0; held := 0; pool := []; hostReply := "accept"%string;
     candidates := [] |}.

(** A host database with two hosts. *)
Definition world_pair : World :=
  {| available := 10 ^ 30; held := 0; pool := []; hostReply := "accept"%string;
     candidates := [goodHost; goodHost] |}.

Definition allowance_poor : Allowance :=
  {| Funds := 1; Hosts := 2; Period := 100; RenewWindow := 10 |}.

Definition allowance_three : Allowance :=
  {| Funds := 10 ^ 12; Hosts := 3; Period := 100; RenewWindow := 10 |}.

(** A contractor with an address left cached. *)
Definition contractor_cached : Contractor :=
  {| contracts := ∅; spentPeriod := 5; spentTotal := 9; cachedAddress := 55;
     blockHeight := 100; renewHeight := 0 |}.

Definition peers_a : gset string := {[ "a:9981"%string ]}.

(** A host database with the two hosts of prices 1 and 2. *)
Definition world_uneven : World :=
  {| available := 10 ^ 30; held := 0; pool := []; hostReply := "accept"%string;
     candidates := unevenHosts |}.

(** The same collaborators with a wallet that is locked: [NextAddress]
    fails. *)
Definition errLockedWallet : error :=
  errorsNew "wallet must be unlocked before it can be used".

Definition collab_locked : handler World := fun q =>
  match q as q0 return World -> resp q0 * World with
  | WalletNextAddress => fun w => (inr errLockedWallet, w)
  | q0 => collab q0
  end.

End Cases.

(** ** Reasoning about runs *)

Section Proofs.
Context `{E : Env}.

Lemma wpr_run {W R : Type} (h : handler W) (p : Prog R) :
  forall w Q,
    wpr h p w Q <->
    Q (result_of (run h p w)) (world_of (run h p w)) (trace_of (run h p w)).
Proof.
  induction p as [r| |q k IH]; intros w Q; cbn; try reflexivity.
  rewrite IH. destruct (h q w) as [x w1]. cbn.
  destruct (run h (k x) w1) as [[r w2] tr]. reflexivity.
Qed.

Lemma Cmp_gt (x y : Currency) : (0 <? Currency_Cmp x y)%Z = true <-> y < x.
Proof.
  unfold Currency_Cmp.
  destruct (N.compare_spec x y); cbn; split; intros; try lia; discriminate.
Qed.

Lemma Cmp_le (x y : Currency) : (0 <? Currency_Cmp x y)%Z = false <-> x <= y.
Proof.
  unfold Currency_Cmp.
  destruct (N.compare_spec x y); cbn; split; intros; try lia; discriminate.
Qed.

Lemma Cmp_lt (x y : Currency) : (Currency_Cmp x y <? 0)%Z = true <-> x < y.
Proof.
  unfold Currency_Cmp.
  destruct (N.compare_spec x y); cbn; split; intros; try lia; discriminate.
Qed.

Lemma last_None_nil {A : Type} (l : list A) : last l = None -> l = [].
Proof.
  destruct l as [|a l]; [reflexivity|]. intros H. exfalso.
  revert a H. induction l as [|b l IH]; intros a H; [discriminate|].
  exact (IH b H).
Qed.

Lemma assembleContract_Some host fcid fc uc sk contract :
  assembleContract host fcid fc uc sk = Some contract ->
  ct_FileContract contract = fc /\ ID contract = fcid /\
  IP contract = host_NetAddress host /\
  NewValidProofOutputs (LastRevision contract) = take 2 (fc_ValidProofOutputs fc) /\
  NewMissedProofOutputs (LastRevision contract) = take 2 (fc_MissedProofOutputs fc).
Proof.
  unfold assembleContract.
  destruct (fc_ValidProofOutputs fc) as [|v0 [|v1 vs]]; cbn; try discriminate.
  destruct (fc_MissedProofOutputs fc) as [|m0 [|m1 ms]]; cbn; try discriminate.
  intros [= <-]. cbn. repeat split; reflexivity.
Qed.

Lemma assembleContract_None host fcid fc uc sk :
  assembleContract host fcid fc uc sk = None ->
  (length (fc_ValidProofOutputs fc) < 2)%nat \/
  (length (fc_MissedProofOutputs fc) < 2)%nat.
Proof.
  unfold assembleContract.
  destruct (fc_ValidProofOutputs fc) as [|v0 [|v1 vs]]; cbn; try (left; lia).
  destruct (fc_MissedProofOutputs fc) as [|m0 [|m1 ms]]; cbn; try (right; lia).
  discriminate.
Qed.

(** One step of a run: unfold the program, or split on what decides the
    next step. *)
Ltac wstep :=
  first
    [ progress cbn [wpr bind finally ask]
    | match goal with
      | |- context [match ?x with _ => _ end] =>
          lazymatch x with
          | context [wpr] => fail
          | context [match _ with _ => _ end] => fail
          | _ => destruct x eqn:?
          end
      end ].

Ltac norm_hyps :=
  repeat match goal with
  | H : (0 <? Currency_Cmp _ _)%Z = true |- _ => apply Cmp_gt in H
  | H : (0 <? Currency_Cmp _ _)%Z = false |- _ => apply Cmp_le in H
  | H : (_ =? _) = true |- _ => apply N.eqb_eq in H
  | H : (_ =? _) = false |- _ => apply N.eqb_neq in H
  | H : (_ <=? _) = true |- _ =>
      unfold set_cachedAddress in H; cbn [blockHeight] in H; apply N.leb_le in H
  | H : (_ <=? _) = false |- _ =>
      unfold set_cachedAddress in H; cbn [blockHeight] in H; apply N.leb_gt in H
  | H : last _ = None |- _ => apply last_None_nil in H; subst
  | H : is_duplicate ?e = true |- _ => destruct e; try discriminate H; clear H
  | H : is_duplicate ?e = false |- _ =>
      assert (e <> ErrDuplicateTransactionSet) by (intros ->; discriminate H);
      clear H
  end.

Ltac in_reqs H :=
  unfold reqs in H; cbn [map call_req In] in H;
  repeat (destruct H as [H|H]; [try discriminate H|]);
  try contradiction.

Ltac pick_address :=
  first [ solve [left; repeat split; first [reflexivity | assumption]]
        | solve [right; repeat split; first [reflexivity | assumption]] ].

Ltac same_contractor :=
  first [ reflexivity
        | match goal with c : Contractor |- _ => destruct c; reflexivity end ].

Ltac drops_draft :=
  let b := fresh "b" in let amount := fresh "amount" in let H := fresh "H" in
  intros b amount H; in_reqs H;
  try (injection H as <- <-; eexists; reflexivity).

Ltac leaf_error :=
  first
    [ solve [left; repeat split; first [reflexivity | assumption]]
    | solve [right; left; repeat split; first [reflexivity | assumption]]
    | right; right; split; [assumption|];
      eexists; split; [pick_address|];
      split; [same_contractor|];
      split; [intros; first [reflexivity | lia]|];
      drops_draft ].

Ltac leaf_ok :=
  eexists _, _, _; split; [pick_address|];
  split; [assumption|]; split; [assumption|];
  split; [eassumption|]; split; [reflexivity|];
  split; [reflexivity|]; first [left; reflexivity | right; reflexivity].

(** Every run of [newContract] ends as [newContract_post] says. *)
Lemma newContract_wpr {W : Type} (h : handler W) w c host fs eh :
  wpr h (newContract c host fs eh) w
      (fun r _ tr => newContract_post c host fs eh r tr).
Proof.
  unfold newContract, verifySettings, negotiateContract.
  repeat wstep; norm_hyps;
    repeat match goal with
    | H : assembleContract _ _ _ _ _ = None |- _ => discriminate H
    | H : assembleContract _ _ _ _ _ = Some _ |- _ =>
        apply assembleContract_Some in H; destruct H as (H & _)
    end;
    unfold newContract_post.
  all: try leaf_error.
  all: try (split; [lia | first [left; left; reflexivity | right; left; reflexivity]]).
  all: leaf_ok.
Qed.

Lemma newContract_run {W : Type} (h : handler W) w c host fs eh :
  newContract_post c host fs eh
    (result_of (run h (newContract c host fs eh) w))
    (trace_of (run h (newContract c host fs eh) w)).
Proof. exact (proj1 (wpr_run h _ w _) (newContract_wpr h w c host fs eh)). Qed.

(** Every run of [negotiateContract] ends as [negotiateContract_post]
    says. *)
Lemma negotiateContract_wpr {W : Type} (h : handler W) w conn host fc b :
  wpr h (negotiateContract conn host fc b) w
      (fun r _ tr => negotiateContract_post host fc r tr).
Proof.
  unfold negotiateContract.
  repeat wstep; norm_hyps; unfold negotiateContract_post.
  all: try solve [left; reflexivity].
  all: try solve [right; split; [reflexivity | assumption]].
  all: try solve [left; split; [left; reflexivity | reflexivity]].
  all: try match goal with
    | H : assembleContract _ _ _ _ _ = None |- _ =>
        right; split; [exact (assembleContract_None _ _ _ _ _ H)|];
        first [left; reflexivity | right; reflexivity]
    end.
  all: match goal with
    | H : assembleContract _ _ _ _ _ = Some _ |- _ =>
        apply assembleContract_Some in H;
        destruct H as (Hfc & _ & Hip & Hv & Hm)
    end.
  all: split; [eexists; exact Hfc|]; split; [exact Hip|];
       split; [exact Hv|]; split; [exact Hm|];
       first [left; reflexivity | right; reflexivity].
Qed.

Lemma negotiateContract_run {W : Type} (h : handler W) w conn host fc b :
  negotiateContract_post host fc
    (result_of (run h (negotiateContract conn host fc b) w))
    (trace_of (run h (negotiateContract conn host fc b) w)).
Proof. exact (proj1 (wpr_run h _ w _) (negotiateContract_wpr h w conn host fc b)). Qed.

(** What [Sign] answered in a run is what the handler answers to [Sign]. *)
Lemma sign_answers_run {W R : Type} (h : handler W) (p : Prog R) :
  forall w a, In a (sign_answers (trace_of (run h p w))) ->
    exists b whole w0, (h (BuilderSign b whole) w0).1 = a.
Proof.
  induction p as [r| |q k IH]; intros w a; cbn; try contradiction.
  destruct (h q w) as [x w1] eqn:Hq.
  destruct (run h (k x) w1) as [[r w2] tr] eqn:Hk.
  intros Hin.
  assert (Htl : In a (sign_answers tr) ->
                exists b whole w0, (h (BuilderSign b whole) w0).1 = a).
  { intros Ha. apply (IH x w1). rewrite Hk. exact Ha. }
  destruct q; try exact (Htl Hin).
  destruct Hin as [<-|Hin]; [|exact (Htl Hin)].
  exists b, wholeTransaction, w. rewrite Hq. reflexivity.
Qed.

(** ** The claims *)

(** C8. A host whose advertised price is above [maxPrice] is rejected with
    [errTooExpensive] before anything else happens: the run makes no call
    to any collaborator (no network, no address, no funds), and leaves the
    world and the contractor as they were. *)
Theorem newContract_rejects_expensive_host {W : Type} (h : handler W)
    (w : W) (c : Contractor) (host : HostDBEntry) (fs : N) (eh : BlockHeight) :
  maxPrice < ContractPrice host ->
  run h (newContract c host fs eh) w = (Some (inr errTooExpensive, c), w, []).
Proof.
  intros Hp. unfold newContract.
  rewrite (proj2 (Cmp_gt _ _) Hp). reflexivity.
Qed.

(** An error of the wallet's [NextAddress] is what [newContract] returns,
    with the contractor as it was; and where the host passes the price
    check, no address is cached and none was handed out, [NextAddress] did
    answer with an error. *)
Lemma newContract_address_wpr {W : Type} (h : handler W) w c host fs eh :
  wpr h (newContract c host fs eh) w
      (fun r _ tr =>
         (forall e, In e (address_errors tr) -> r = Some (inr e, c)) /\
         (ContractPrice host <= maxPrice -> cachedAddress c = 0 ->
          reserved_addresses tr = [] -> exists e, address_errors tr = [e])).
Proof.
  unfold newContract, verifySettings, negotiateContract.
  repeat wstep; norm_hyps.
  all: split;
    [ let e := fresh "e" in
      let Hin := fresh "Hin" in
      intros e Hin; cbn in Hin;
      repeat (destruct Hin as [Hin|Hin]; [try discriminate Hin|]);
      try contradiction; subst; reflexivity
    | let Hp := fresh "Hp" in
      let Hc := fresh "Hc" in
      let Hr := fresh "Hr" in
      intros Hp Hc Hr;
      first [ lia | contradiction | discriminate Hr | eexists; reflexivity ] ].
Qed.

Lemma newContract_address_run {W : Type} (h : handler W) w c host fs eh :
  (forall e, In e (address_errors (trace_of (run h (newContract c host fs eh) w))) ->
     result_of (run h (newContract c host fs eh) w) = Some (inr e, c)) /\
  (ContractPrice host <= maxPrice -> cachedAddress c = 0 ->
   reserved_addresses (trace_of (run h (newContract c host fs eh) w)) = [] ->
   exists e, address_errors (trace_of (run h (newContract c host fs eh) w)) = [e]).
Proof. exact (proj1 (wpr_run h _ w _) (newContract_address_wpr h w c host fs eh)). Qed.

(** C9, as amended.  A call of [newContract] whose end height is not after
    the current block height never yields a contract: it always ends in an
    error.  The error is the invalid-duration one whenever the host passes
    the price check and an address is at hand (cached, or handed out by the
    wallet); a host above the price ceiling is rejected earlier, with
    [errTooExpensive]; and a failure of the wallet's [NextAddress] is
    returned as it is, with the contractor unchanged.  The three cases are
    all there are: where the host passes the price check and no address is
    at hand, [NextAddress] was asked and failed. *)
Theorem newContract_rejects_past_end_height {W : Type} (h : handler W)
    (w : W) (c : Contractor) (host : HostDBEntry) (fs : N) (eh : BlockHeight) :
  eh <= blockHeight c ->
  (exists err c', result_of (run h (newContract c host fs eh) w) = Some (inr err, c')) /\
  (ContractPrice host <= maxPrice ->
   cachedAddress c <> 0 \/
     reserved_addresses (trace_of (run h (newContract c host fs eh) w)) <> [] ->
   exists c', result_of (run h (newContract c host fs eh) w) = Some (inr errPast, c')) /\
  (maxPrice < ContractPrice host ->
   result_of (run h (newContract c host fs eh) w) = Some (inr errTooExpensive, c)) /\
  (forall e,
     In e (address_errors (trace_of (run h (newContract c host fs eh) w))) ->
     result_of (run h (newContract c host fs eh) w) = Some (inr e, c)) /\
  (ContractPrice host <= maxPrice ->
   cachedAddress c = 0 ->
   reserved_addresses (trace_of (run h (newContract c host fs eh) w)) = [] ->
   exists e,
     address_errors (trace_of (run h (newContract c host fs eh) w)) = [e] /\
     result_of (run h (newContract c host fs eh) w) = Some (inr e, c)).
Proof.
  intros Heh.
  assert (Haddr : (forall e,
     In e (address_errors (trace_of (run h (newContract c host fs eh) w))) ->
     result_of (run h (newContract c host fs eh) w) = Some (inr e, c)) /\
    (ContractPrice host <= maxPrice ->
     cachedAddress c = 0 ->
     reserved_addresses (trace_of (run h (newContract c host fs eh) w)) = [] ->
     exists e,
       address_errors (trace_of (run h (newContract c host fs eh) w)) = [e] /\
       result_of (run h (newContract c host fs eh) w) = Some (inr e, c))).
  { destruct (newContract_address_run h w c host fs eh) as (Hret & Hasked).
    split; [exact Hret|]. intros Hp Hc Hr.
    destruct (Hasked Hp Hc Hr) as (e & He). exists e. split; [exact He|].
    apply Hret. rewrite He. left. reflexivity. }
  revert Haddr.
  pose proof (newContract_run h w c host fs eh) as P.
  destruct (result_of (run h (newContract c host fs eh) w))
    as [[[contract|err] c']|]; cbv beta iota delta [newContract_post negotiateContract_post] in P.
  - destruct P as (a & u & conn & _ & _ & Hlt & _). lia.
  - intros Hwallet. split; [eauto|]. split; [|split; [|exact Hwallet]].
    + intros Hp Haddr.
      destruct P as [(Hgt & _)|[(_ & Hz & Hnone & _)|(_ & a & _ & _ & Herr & _)]].
      * lia.
      * destruct Haddr as [Hc|Hr]; [contradiction|]. rewrite Hnone in Hr. contradiction.
      * rewrite (Herr Heh). eauto.
    + intros Hp.
      destruct P as [(_ & -> & -> & _)|[(Hle & _)|(Hle & _)]]; [reflexivity|lia|lia].
  - destruct P as (Hlt & _). lia.
Qed.

(** C5. In the terms of every contract [newContract] forms, the renter's
    valid-proof payout and missed-proof payout are equal: both are the rent
    cost (price times size times duration) after [PostTax] at the block
    height the call read. *)
Theorem renter_payouts_equal {W : Type} (h : handler W) (w : W)
    (c : Contractor) (host : HostDBEntry) (fs : N) (eh : BlockHeight)
    (contract : Contract) (c' : Contractor) :
  result_of (run h (newContract c host fs eh) w) = Some (inl contract, c') ->
  exists v m,
    fc_ValidProofOutputs (ct_FileContract contract) !! 0%nat = Some v /\
    fc_MissedProofOutputs (ct_FileContract contract) !! 0%nat = Some m /\
    Value v = Value m /\
    Value v = PostTax (blockHeight c) (renterCost host fs eh (blockHeight c)).
Proof.
  intros Hr.
  pose proof (newContract_run h w c host fs eh) as P.
  rewrite Hr in P. cbv beta iota delta [newContract_post negotiateContract_post] in P.
  destruct P as (a & u & conn & _ & _ & _ & Hfc & _).
  rewrite Hfc. cbn. eexists _, _. repeat split; reflexivity.
Qed.

(** C4, as amended.  In the terms of every contract [newContract] forms,
    the host's missed-proof payout is zero and goes to the zero (burn)
    unlock hash, and the host's valid-proof payout is zero as well and goes
    to the host's unlock hash; the host's collateral enters the contract
    only through the total payout, which is the rent cost plus the
    collateral. *)
Theorem host_payouts_zero {W : Type} (h : handler W) (w : W)
    (c : Contractor) (host : HostDBEntry) (fs : N) (eh : BlockHeight)
    (contract : Contract) (c' : Contractor) :
  result_of (run h (newContract c host fs eh) w) = Some (inl contract, c') ->
  fc_MissedProofOutputs (ct_FileContract contract) !! 1%nat
    = Some {| Value := ZeroCurrency; sco_UnlockHash := 0 |} /\
  fc_ValidProofOutputs (ct_FileContract contract) !! 1%nat
    = Some {| Value := ZeroCurrency; sco_UnlockHash := host_UnlockHash host |} /\
  fc_Payout (ct_FileContract contract)
    = Currency_Add (renterCost host fs eh (blockHeight c)) (Collateral host).
Proof.
  intros Hr.
  pose proof (newContract_run h w c host fs eh) as P.
  rewrite Hr in P. cbv beta iota delta [newContract_post negotiateContract_post] in P.
  destruct P as (a & u & conn & _ & _ & _ & Hfc & _).
  rewrite Hfc. cbn. repeat split; reflexivity.
Qed.

(** C6. After every successful formation the contractor holds the contract
    under its ID, [spentPeriod] and [spentTotal] have each grown by exactly
    the contract's payout, [cachedAddress] is empty, and the call ended with
    one critical section - lock, save of exactly this new state, unlock -
    followed only by the closing of the connection. *)
Theorem newContract_records_formation {W : Type} (h : handler W) (w : W)
    (c : Contractor) (host : HostDBEntry) (fs : N) (eh : BlockHeight)
    (contract : Contract) (c' : Contractor) :
  result_of (run h (newContract c host fs eh) w) = Some (inl contract, c') ->
  formation_recorded c c' contract (trace_of (run h (newContract c host fs eh) w)).
Proof.
  intros Hr.
  pose proof (newContract_run h w c host fs eh) as P.
  rewrite Hr in P. cbv beta iota delta [newContract_post negotiateContract_post] in P.
  destruct P as (a & u & conn & _ & _ & _ & Hfc & Hc' & Hlast & _).
  unfold formation_recorded. rewrite Hfc. subst c'. cbn.
  repeat split; try reflexivity. exists conn. exact Hlast.
Qed.

(** C7. When the pool answers the submission of the host's transaction set
    with [ErrDuplicateTransactionSet], [negotiateContract] goes on as after
    an accepted submission and returns the assembled contract; any other
    error of the pool is returned as the error of the negotiation. *)
Theorem negotiateContract_duplicate_is_success {W : Type} (h : handler W)
    (w : W) (conn : Conn) (host : HostDBEntry) (fc : FileContract)
    (b : Builder) (e : error) :
  In (Some e) (pool_answers (trace_of (run h (negotiateContract conn host fc b) w))) ->
  (e <> ErrDuplicateTransactionSet ->
   result_of (run h (negotiateContract conn host fc b) w) = Some (inr e)) /\
  (e = ErrDuplicateTransactionSet ->
   length (fc_ValidProofOutputs fc) = 2%nat ->
   length (fc_MissedProofOutputs fc) = 2%nat ->
   exists contract,
     result_of (run h (negotiateContract conn host fc b) w) = Some (inl contract) /\
     (exists u, ct_FileContract contract = set_fc_UnlockHash fc u) /\
     IP contract = host_NetAddress host /\
     NewValidProofOutputs (LastRevision contract) = fc_ValidProofOutputs fc /\
     NewMissedProofOutputs (LastRevision contract) = fc_MissedProofOutputs fc).
Proof.
  intros Hin.
  pose proof (negotiateContract_run h w conn host fc b) as P.
  destruct (result_of (run h (negotiateContract conn host fc b) w))
    as [[contract|err]|]; cbv beta iota delta [newContract_post negotiateContract_post] in P.
  - destruct P as (Hfc & Hip & Hv & Hm & [Hp|Hp]); rewrite Hp in Hin;
      destruct Hin as [Hin|[]]; [discriminate Hin|].
    injection Hin as <-. split; [congruence|].
    intros _ Hlv Hlm. exists contract. repeat split; try assumption.
    + rewrite Hv. apply firstn_all2. rewrite Hlv. lia.
    + rewrite Hm. apply firstn_all2. rewrite Hlm. lia.
  - destruct P as [Hp|(Hp & Hne)]; rewrite Hp in Hin; [destruct Hin|].
    destruct Hin as [Hin|[]]. injection Hin as <-.
    split; [reflexivity|]. intros ->. contradiction.
  - destruct P as [(_ & Hp)|(Hlen & [Hp|Hp])]; rewrite Hp in Hin.
    + destruct Hin.
    + destruct Hin as [Hin|[]]. discriminate Hin.
    + destruct Hin as [Hin|[]]. injection Hin as <-.
      split; [congruence|]. intros _ Hlv Hlm. lia.
Qed.

(** C10. [negotiateContract] takes the last element of the signed set and
    the elements 0 and 1 of both output lists.  If [Sign] never answers
    with an empty set and the file contract has exactly two valid-proof and
    two missed-proof outputs, the run does not panic; the terms
    [newContract] builds have exactly two outputs in each list, so under the
    same condition on [Sign] no run of [newContract] panics at an index
    either: a run of [newContract] that panics is one in which
    [build.Critical] itself panicked, on a host key of the wrong kind in a
    debug build. *)
Theorem negotiateContract_indexing_in_bounds {W : Type} (h : handler W)
    (w : W) (conn : Conn) (host : HostDBEntry) (fc : FileContract)
    (b : Builder) (c : Contractor) (fs : N) (eh height : BlockHeight)
    (ourAddress : UnlockHash) :
  (forall b' whole w0, (h (BuilderSign b' whole) w0).1 <> inl []) ->
  length (fc_ValidProofOutputs fc) = 2%nat ->
  length (fc_MissedProofOutputs fc) = 2%nat ->
  result_of (run h (negotiateContract conn host fc b) w) <> None /\
  length (fc_ValidProofOutputs (newFileContract host fs eh height ourAddress)) = 2%nat /\
  length (fc_MissedProofOutputs (newFileContract host fs eh height ourAddress)) = 2%nat /\
  (result_of (run h (newContract c host fs eh) w) = None ->
   In None (critical_answers (trace_of (run h (newContract c host fs eh) w)))).
Proof.
  intros Hsign Hlv Hlm.
  assert (Hno : forall R (p : Prog R) w1,
             ~ In (inl []) (sign_answers (trace_of (run h p w1)))).
  { intros R p w1 Hin. apply sign_answers_run in Hin.
    destruct Hin as (b' & whole & w0 & Hin). exact (Hsign _ _ _ Hin). }
  split; [|split; [reflexivity|split; [reflexivity|]]].
  - pose proof (negotiateContract_run h w conn host fc b) as P.
    intros Hr. rewrite Hr in P. cbv beta iota delta [newContract_post negotiateContract_post] in P.
    destruct P as [(Hin & _)|(Hlen & _)]; [exact (Hno _ _ _ Hin)|lia].
  - pose proof (newContract_run h w c host fs eh) as P.
    intros Hr. rewrite Hr in P. cbv beta iota delta [newContract_post negotiateContract_post] in P.
    destruct P as (_ & [Hin|Hin]); [destruct (Hno _ _ _ Hin)|exact Hin].
Qed.

(** A cached address is used as it is: with a non-zero [cachedAddress]
    no run of [newContract] asks the wallet for an address. *)
Lemma cached_address_reused {W : Type} (h : handler W) (w : W)
    (c : Contractor) (host : HostDBEntry) (fs : N) (eh : BlockHeight) :
  cachedAddress c <> 0 ->
  ~ In WalletNextAddress (reqs (trace_of (run h (newContract c host fs eh) w))).
Proof.
  intros Hc.
  apply (proj1 (wpr_run h (newContract c host fs eh) w
                  (fun _ _ tr => ~ In WalletNextAddress (reqs tr)))).
  unfold newContract, verifySettings, negotiateContract.
  repeat wstep; norm_hyps; try contradiction.
  all: intros Hin; in_reqs Hin.
Qed.

(** C2, as amended.  When an attempt of [newContract] has an address at
    hand (the cached one, or one the wallet handed out in this call) and
    then fails, every draft that was asked for funds has been dropped before
    the call returns - so the reserved funds are back with the wallet - and
    the cached address is not cleared: it holds the address of this attempt,
    for the next attempt to use.  Contracts and spending are untouched. *)
Theorem failed_attempt_keeps_address {W : Type} (h : handler W) (w : W)
    (c : Contractor) (host : HostDBEntry) (fs : N) (eh : BlockHeight)
    (err : error) (c' : Contractor) :
  result_of (run h (newContract c host fs eh) w) = Some (inr err, c') ->
  ContractPrice host <= maxPrice ->
  cachedAddress c <> 0 \/
    reserved_addresses (trace_of (run h (newContract c host fs eh) w)) <> [] ->
  cachedAddress c' = address_used c (trace_of (run h (newContract c host fs eh) w)) /\
  contracts c' = contracts c /\
  spentPeriod c' = spentPeriod c /\
  spentTotal c' = spentTotal c /\
  drafts_dropped (trace_of (run h (newContract c host fs eh) w)).
Proof.
  intros Hr Hp Haddr.
  pose proof (newContract_run h w c host fs eh) as P.
  rewrite Hr in P. cbv beta iota delta [newContract_post negotiateContract_post] in P. unfold address_used.
  destruct P as [(Hgt & _)|[(_ & Hz & Hnone & _)|(_ & a & Ha & -> & _ & Hd)]].
  - lia.
  - destruct Haddr as [Hc|Hres]; [contradiction|].
    rewrite Hnone in Hres. contradiction.
  - cbn. repeat split; try reflexivity; [|exact Hd].
    destruct Ha as [(-> & Hne & _)|(Hz & ->)].
    + apply N.eqb_neq in Hne. rewrite Hne. reflexivity.
    + rewrite Hz. reflexivity.
Qed.

(** [formContracts] returns the error of its arithmetic, and does nothing
    else after the sampling. *)
Lemma formContracts_plan_error {W : Type} (h : handler W) (w : W)
    (c : Contractor) (a : Allowance) (e : error) :
  planFilesize a (h (HdbRandomHosts (int_of_uint64 (mul64 2 (Hosts a)))) w).1
    = PlanError e ->
  result_of (run h (formContracts c a) w) = Some (Some e, c) /\
  reqs (trace_of (run h (formContracts c a) w))
    = [HdbRandomHosts (int_of_uint64 (mul64 2 (Hosts a)))].
Proof.
  intros Hplan. unfold formContracts. cbn [bind ask run].
  destruct (h (HdbRandomHosts (int_of_uint64 (mul64 2 (Hosts a)))) w)
    as [hosts w1].
  cbn [fst] in Hplan. rewrite Hplan. split; reflexivity.
Qed.

(** The cost per sector that [planFilesize] computes is [costPerSector]. *)
Lemma planFilesize_unfold (a : Allowance) (hosts : list HostDBEntry) :
  Hosts a <= N.of_nat (length hosts) ->
  0 < costPerSector a hosts ->
  costPerSector a hosts <= Funds a ->
  planFilesize a hosts =
    match Currency_Uint64 (Funds a / costPerSector a hosts) with
    | None => PlanError errTooLarge
    | Some numSectors => PlanFilesize (mul64 numSectors SectorSize)
    end.
Proof.
  intros Hlen Hpos Hfund. unfold planFilesize.
  assert (Hn : N.of_nat (length hosts) <> 0).
  { intros Hz. unfold costPerSector, avgPrice in Hpos. rewrite Hz in Hpos.
    rewrite N.div_0_r in Hpos. lia. }
  rewrite (proj2 (N.ltb_ge _ _) Hlen).
  unfold Currency_Div, NewCurrency64, Currency_Mul.
  rewrite (proj2 (N.eqb_neq _ _) Hn).
  fold (avgPrice hosts). fold (costPerSector a hosts).
  destruct (Currency_Cmp (Funds a) (costPerSector a hosts) <? 0)%Z eqn:Hc.
  { apply Cmp_lt in Hc. lia. }
  assert (Hcz : costPerSector a hosts <> 0) by lia.
  rewrite (proj2 (N.eqb_neq _ _) Hcz). reflexivity.
Qed.

(** C3, as amended.  For an allowance that passes the affordability check
    with a cost per sector that is not zero, where the mean price [M] is the
    one the code computes (the sum of the prices divided by the number of
    sampled hosts, rounded down): if [floor (Funds / (M * Hosts * SectorSize
    * Period)) * SectorSize] is below [2^64], it is the filesize; and if the
    quotient itself exceeds [2^64 - 1], the result is the
    allowance-too-large error, which is then what [formContracts] returns
    for these sampled hosts, with the contractor as it was. *)
Theorem filesize_from_budget (a : Allowance) (hosts : list HostDBEntry) :
  Hosts a <= N.of_nat (length hosts) ->
  0 < costPerSector a hosts ->
  costPerSector a hosts <= Funds a ->
  (Funds a / costPerSector a hosts * SectorSize < 2 ^ 64 ->
   planFilesize a hosts
     = PlanFilesize (Funds a / costPerSector a hosts * SectorSize)) /\
  (MaxUint64 < Funds a / costPerSector a hosts ->
   planFilesize a hosts = PlanError errTooLarge) /\
  (MaxUint64 < Funds a / costPerSector a hosts ->
   forall (W : Type) (h : handler W) (w : W) (c : Contractor),
     (h (HdbRandomHosts (int_of_uint64 (mul64 2 (Hosts a)))) w).1 = hosts ->
     result_of (run h (formContracts c a) w) = Some (Some errTooLarge, c)).
Proof.
  intros Hlen Hpos Hfund.
  assert (Hbig : MaxUint64 < Funds a / costPerSector a hosts ->
                 planFilesize a hosts = PlanError errTooLarge).
  { intros Hbig. rewrite (planFilesize_unfold a hosts Hlen Hpos Hfund).
    unfold Currency_Uint64. rewrite (proj2 (N.ltb_lt _ _) Hbig). reflexivity. }
  split; [|split; [exact Hbig|]]; cycle 1.
  { intros Hq W h w c Hh.
    apply (formContracts_plan_error h w c a errTooLarge).
    rewrite Hh. exact (Hbig Hq). }
  clear Hbig.
  rewrite (planFilesize_unfold a hosts Hlen Hpos Hfund).
  unfold Currency_Uint64.
  - intros Hsmall.
    assert (Hs : SectorSize <> 0).
    { intros Hz. unfold costPerSector in Hpos.
      rewrite Hz, N.mul_0_r, N.mul_0_l in Hpos. lia. }
    assert (Hq : Funds a / costPerSector a hosts <= MaxUint64).
    { unfold MaxUint64.
      assert (H1 : 1 <= SectorSize) by lia.
      apply (N.mul_le_mono_l _ _ (Funds a / costPerSector a hosts)) in H1.
      rewrite N.mul_1_r in H1.
      change (2 ^ 64) with 18446744073709551616 in Hsmall. lia. }
    rewrite (proj2 (N.ltb_ge _ _) Hq).
    unfold mul64, wrap64. rewrite N.mod_small by exact Hsmall. reflexivity.
Qed.

(** Runs of [bind] agree when the continuations do. *)
Lemma run_bind_ext {W A B : Type} (h : handler W) (p : Prog A)
    (f g : A -> Prog B) :
  (forall x w, run h (f x) w = run h (g x) w) ->
  forall w, run h (bind p f) w = run h (bind p g) w.
Proof.
  intros Hfg. induction p as [r| |q k IH]; intros w; cbn.
  - apply Hfg.
  - reflexivity.
  - destruct (h q w) as [x w1]. rewrite IH. reflexivity.
Qed.

(** The loop of [formContracts] never looks past the first [Hosts]
    candidates (the first one, for a target of 0), whatever the attempts
    return: it runs exactly as on that prefix of the list. *)
Lemma formLoop_tries_first_hosts_only {W : Type} (h : handler W)
    (a : Allowance) (fs : N) (eh : BlockHeight) :
  Hosts a < 2 ^ 64 ->
  forall hosts n c w,
    n < 2 ^ 64 - 1 ->
    run h (formLoop hosts a fs eh n c) w =
    run h (formLoop (take (N.to_nat (N.max 1 (Hosts a - n))) hosts) a fs eh n c) w.
Proof.
  intros Hh. induction hosts as [|h0 rest IH]; intros n c w Hn.
  - rewrite take_nil. reflexivity.
  - destruct (N.to_nat (N.max 1 (Hosts a - n))) as [|m] eqn:Hk; [lia|].
    cbn [take firstn formLoop].
    apply run_bind_ext. intros [r c1] w1.
    apply run_bind_ext. intros _ w2.
    assert (Hn1 : add64 n 1 = n + 1).
    { unfold add64, wrap64. apply N.mod_small. lia. }
    rewrite Hn1.
    destruct (Hosts a <=? n + 1) eqn:Hstop; [reflexivity|].
    apply N.leb_gt in Hstop.
    rewrite (IH (n + 1) c1 w2) by lia.
    replace (N.to_nat (N.max 1 (Hosts a - (n + 1)))) with m by lia.
    reflexivity.
Qed.

(** ** Further properties of the code *)

(** The run of [bind]: the run of the first part, then, unless it
    panicked, the run of the rest. *)
Lemma run_bind {W A B : Type} (h : handler W) (p : Prog A) (f : A -> Prog B) :
  forall w,
    run h (bind p f) w =
    match run h p w with
    | (Some x, w1, tr1) =>
        let '(r, w2, tr2) := run h (f x) w1 in (r, w2, tr1 ++ tr2)
    | (None, w1, tr1) => (None, w1, tr1)
    end.
Proof.
  induction p as [r| |q k IH]; intros w; cbn.
  - destruct (run h (f r) w) as [[r2 w2] tr2]. reflexivity.
  - reflexivity.
  - destruct (h q w) as [x w1]. rewrite IH.
    destruct (run h (k x) w1) as [[[y|] w2] tr]; [|reflexivity].
    destruct (run h (f y) w2) as [[r3 w3] tr3]. reflexivity.
Qed.

Lemma eqb_string_false (s t : string) : (s =? t)%string = false <-> s <> t.
Proof. apply String.eqb_neq. Qed.

(** X1. A host whose key is not an Ed25519 key of [PublicKeySize] bytes is
    never verified: the only call [verifySettings] makes is
    [build.Critical], nothing is read from the connection, and the call
    ends in the unsupported-algorithm error where [build.Critical] returns
    and in a panic where [build.Critical] panics (a debug build). *)
Theorem verifySettings_rejects_unsupported_key {W : Type} (h : handler W)
    (w : W) (conn : Conn) (host : HostDBEntry) :
  Algorithm (PublicKey host) <> SignatureEd25519 \/
    length (Key (PublicKey host)) <> PublicKeySize ->
  reqs (trace_of (run h (verifySettings conn host) w))
    = [BuildCritical
         "hostdb did not filter out host with wrong signature algorithm:"
         (Algorithm (PublicKey host))] /\
  ((critical_answers (trace_of (run h (verifySettings conn host) w)) = [Some tt] /\
    result_of (run h (verifySettings conn host) w)
      = Some (inr (errorsNew "host used unsupported signature algorithm")))
   \/
   (critical_answers (trace_of (run h (verifySettings conn host) w)) = [None] /\
    result_of (run h (verifySettings conn host) w) = None)).
Proof.
  intros Hbad. unfold verifySettings.
  assert (Hc : negb (Algorithm (PublicKey host) =? SignatureEd25519)%string
               || negb (length (Key (PublicKey host)) =? PublicKeySize)%nat = true).
  { destruct Hbad as [Ha|Hl].
    - apply eqb_string_false in Ha. rewrite Ha. reflexivity.
    - apply Nat.eqb_neq in Hl. rewrite Hl. apply orb_true_r. }
  rewrite Hc. cbn [bind ask run].
  destruct (h _ w) as [[[]|] w1]; cbn.
  - split; [reflexivity|]. left. split; reflexivity.
  - split; [reflexivity|]. right. split; reflexivity.
Qed.

(** X2. For a host with a supported key [verifySettings] makes exactly one
    call, the read of the signed settings under the host's key.  It
    returns the host with the settings replaced by the ones read, and only
    if they say the host accepts contracts; a failed read and a host that
    does not accept contracts each get their own error. *)
Theorem verifySettings_reads_and_checks {W : Type} (h : handler W)
    (w : W) (conn : Conn) (host : HostDBEntry) :
  Algorithm (PublicKey host) = SignatureEd25519 ->
  length (Key (PublicKey host)) = PublicKeySize ->
  reqs (trace_of (run h (verifySettings conn host) w))
    = [CryptoReadSignedObject conn MaxHostExternalSettingsLen
         (Key (PublicKey host))] /\
  match result_of (run h (verifySettings conn host) w) with
  | Some (inl host') =>
      exists s,
        settings_read (trace_of (run h (verifySettings conn host) w)) = [s] /\
        AcceptingContracts s = true /\
        host' = {| ExternalSettings := s; PublicKey := PublicKey host |}
  | Some (inr err) =>
      (settings_read (trace_of (run h (verifySettings conn host) w)) = [] /\
       exists e, err = errorsNew
                         (String.append "couldn't read host's settings: " (Error e)))
      \/
      (exists s,
         settings_read (trace_of (run h (verifySettings conn host) w)) = [s] /\
         AcceptingContracts s = false /\
         err = errorsNew "host is not accepting contracts")
  | None => False
  end.
Proof.
  intros Ha Hl. unfold verifySettings.
  rewrite Ha, Hl, String.eqb_refl, Nat.eqb_refl. cbn.
  destruct (h _ w) as [[s|e] w1]; cbn.
  - destruct (AcceptingContracts s) eqn:Hacc; cbn.
    + split; [reflexivity|]. exists s. repeat split; assumption.
    + split; [reflexivity|]. right. exists s. repeat split; assumption.
  - split; [reflexivity|]. left. split; [reflexivity|]. exists e. reflexivity.
Qed.

(** X3. [newContract] keeps the lock discipline in every run, whatever the
    collaborators answer and also when it panics: lock and unlock
    alternate and the mutex is free at the end; the wallet's next address
    and [save] are used only under the lock; no call to the network, the
    builder, the pool or the key generator is made while it is held. *)
Theorem newContract_lock_discipline {W : Type} (h : handler W) (w : W)
    (c : Contractor) (host : HostDBEntry) (fs : N) (eh : BlockHeight) :
  lock_ok false (reqs (trace_of (run h (newContract c host fs eh) w))) = true.
Proof.
  apply (proj1 (wpr_run h (newContract c host fs eh) w
                  (fun _ _ tr => lock_ok false (reqs tr) = true))).
  unfold newContract, verifySettings, negotiateContract.
  repeat wstep; reflexivity.
Qed.

(** X4. [newContract] calls [save] exactly once in a successful run, with
    the state it returns, and never in a run that fails or panics; a failed
    run leaves the contracts, both spending counters and both heights as
    they were. *)
Theorem newContract_saves_only_on_success {W : Type} (h : handler W) (w : W)
    (c : Contractor) (host : HostDBEntry) (fs : N) (eh : BlockHeight) :
  persist_post c (result_of (run h (newContract c host fs eh) w))
               (trace_of (run h (newContract c host fs eh) w)).
Proof.
  apply (proj1 (wpr_run h (newContract c host fs eh) w
                  (fun r _ tr => persist_post c r tr))).
  unfold newContract, verifySettings, negotiateContract.
  repeat wstep; unfold persist_post; repeat split; reflexivity.
Qed.

(** X5. Every connection [newContract] obtains from the dialer is closed,
    and closing it is the last thing the call does - after an error, after
    a success and after a panic alike.  At most one connection is dialed. *)
Theorem newContract_closes_connection {W : Type} (h : handler W) (w : W)
    (c : Contractor) (host : HostDBEntry) (fs : N) (eh : BlockHeight) :
  dialed (trace_of (run h (newContract c host fs eh) w)) = [] \/
  exists conn,
    dialed (trace_of (run h (newContract c host fs eh) w)) = [conn] /\
    last (reqs (trace_of (run h (newContract c host fs eh) w)))
      = Some (ConnClose conn).
Proof.
  apply (proj1 (wpr_run h (newContract c host fs eh) w
                  (fun _ _ tr =>
                     dialed tr = [] \/
                     exists conn, dialed tr = [conn] /\
                                  last (reqs tr) = Some (ConnClose conn)))).
  unfold newContract, verifySettings, negotiateContract.
  repeat wstep;
    first [ left; reflexivity | right; eexists; split; reflexivity ].
Qed.

Lemma assembleContract_fields host fcid fc uc sk contract :
  assembleContract host fcid fc uc sk = Some contract ->
  ID contract = fcid /\
  ct_FileContract contract = fc /\
  IP contract = host_NetAddress host /\
  rev_UnlockConditions (LastRevision contract) = uc /\
  SecretKey contract = sk /\
  LastRevisionTxn contract = Transaction_zero /\
  revision_mirrors contract.
Proof.
  unfold assembleContract, revision_mirrors.
  destruct (fc_ValidProofOutputs fc) as [|v0 [|v1 vs]] eqn:Hv; cbn; try discriminate.
  destruct (fc_MissedProofOutputs fc) as [|m0 [|m1 ms]] eqn:Hm; cbn; try discriminate.
  intros [= <-]. cbn. rewrite Hv, Hm. repeat split; reflexivity.
Qed.

(** X6. In a contract formed by [newContract] the net address is the one
    in the settings just read and verified on the connection (settings that
    say the host accepts contracts), the unlock conditions are two-of-two
    over the key generated for this contract and the host's key, and the
    terms' unlock hash is their hash; the proof window starts at the end
    height and extends by the window size of the host entry the call was
    given; the terms start at file size 0 and revision 0. *)
Theorem formed_contract_parts {W : Type} (h : handler W) (w : W)
    (c : Contractor) (host : HostDBEntry) (fs : N) (eh : BlockHeight) :
  verified_post host eh (result_of (run h (newContract c host fs eh) w))
                (trace_of (run h (newContract c host fs eh) w)).
Proof.
  apply (proj1 (wpr_run h (newContract c host fs eh) w
                  (fun r _ tr => verified_post host eh r tr))).
  unfold newContract, verifySettings, negotiateContract.
  repeat wstep; unfold verified_post; try exact I.
  all: match goal with
       | H : assembleContract _ _ _ _ _ = Some _ |- _ =>
           apply assembleContract_fields in H;
           destruct H as (_ & Hfc & Hip & Huc & _)
       end.
  all: match goal with
       | H : negb (AcceptingContracts _) = false |- _ =>
           apply negb_false_iff in H
       end.
  all: eexists _, _; rewrite Hfc, Hip, Huc;
       repeat split; try reflexivity; assumption.
Qed.

(** Every contract [negotiateContract] returns is assembled as
    [assembled_post] says. *)
Lemma negotiateContract_assembled {W : Type} (h : handler W) (w : W)
    (conn : Conn) (host : HostDBEntry) (fc : FileContract) (b : Builder) :
  assembled_post (result_of (run h (negotiateContract conn host fc b) w))
                 (trace_of (run h (negotiateContract conn host fc b) w)).
Proof.
  apply (proj1 (wpr_run h (negotiateContract conn host fc b) w
                  (fun r _ tr => assembled_post r tr))).
  unfold negotiateContract.
  repeat wstep; unfold assembled_post; try exact I.
  all: match goal with
       | H : assembleContract _ _ _ _ _ = Some _ |- _ =>
           apply assembleContract_fields in H;
           destruct H as (Hid & _ & _ & _ & _ & Htxn & Hm)
       end.
  all: split; [exact Hm|]; split; [exact Htxn|];
       eexists _, _; split; [reflexivity|]; split; [eassumption|exact Hid].
Qed.

(** X7. The last revision of every contract [negotiateContract] returns
    repeats the terms: same file size, Merkle root, window, revision
    number and unlock hash, the first two outputs of each list, and the
    contract's ID as parent; the revision transaction is empty. *)
Theorem negotiated_revision_mirrors_terms {W : Type} (h : handler W) (w : W)
    (conn : Conn) (host : HostDBEntry) (fc : FileContract) (b : Builder)
    (contract : Contract) :
  result_of (run h (negotiateContract conn host fc b) w) = Some (inl contract) ->
  revision_mirrors contract /\ LastRevisionTxn contract = Transaction_zero.
Proof.
  intros Hr. pose proof (negotiateContract_assembled h w conn host fc b) as P.
  rewrite Hr in P. cbv beta iota delta [assembled_post] in P.
  destruct P as (Hm & Ht & _). split; assumption.
Qed.

(** X8. The ID of the contract [negotiateContract] returns is the
    file-contract ID 0 of the last transaction of the set that [Sign]
    returned: it is fixed by the signed set alone. *)
Theorem contract_id_from_signed_set {W : Type} (h : handler W) (w : W)
    (conn : Conn) (host : HostDBEntry) (fc : FileContract) (b : Builder)
    (contract : Contract) :
  result_of (run h (negotiateContract conn host fc b) w) = Some (inl contract) ->
  exists signed t,
    sign_answers (trace_of (run h (negotiateContract conn host fc b) w))
      = [inl signed] /\
    last signed = Some t /\
    ID contract = Transaction_FileContractID t 0.
Proof.
  intros Hr. pose proof (negotiateContract_assembled h w conn host fc b) as P.
  rewrite Hr in P. cbv beta iota delta [assembled_post] in P.
  destruct P as (_ & _ & Hid). exact Hid.
Qed.

Ltac accepted_token :=
  repeat match goal with
  | H : negb (?s =? AcceptResponse)%string = false |- _ =>
      apply negb_false_iff, String.eqb_eq in H; subst s
  | H : negb (?s =? AcceptResponse)%string = true |- _ =>
      apply negb_true_iff, String.eqb_neq in H
  end.

(** X9. When the host answers the proposal with anything but the accept
    token, [negotiateContract] fails with the host's answer in the error,
    reads no transaction set from the host and submits nothing to the
    pool. *)
Theorem host_rejection_aborts {W : Type} (h : handler W) (w : W)
    (conn : Conn) (host : HostDBEntry) (fc : FileContract) (b : Builder)
    (response : string) :
  In response (host_responses (trace_of (run h (negotiateContract conn host fc b) w))) ->
  response <> AcceptResponse ->
  result_of (run h (negotiateContract conn host fc b) w)
    = Some (inr (errorsNew
                   (String.append "host rejected proposed contract: " response))) /\
  host_txn_sets (trace_of (run h (negotiateContract conn host fc b) w)) = [] /\
  pool_answers (trace_of (run h (negotiateContract conn host fc b) w)) = [].
Proof.
  apply (proj1 (wpr_run h (negotiateContract conn host fc b) w
                  (fun r _ tr =>
                     In response (host_responses tr) ->
                     response <> AcceptResponse ->
                     r = Some (inr (errorsNew
                            (String.append "host rejected proposed contract: "
                                           response))) /\
                     host_txn_sets tr = [] /\ pool_answers tr = []))).
  unfold negotiateContract.
  repeat wstep; accepted_token; intros Hin Hne;
    unfold host_responses in Hin; cbn [omap list_omap response_answer] in Hin;
    try contradiction.
  all: destruct Hin as [<-|[]]; try contradiction.
  repeat split; reflexivity.
Qed.

(** X10. What [negotiateContract] passes on is what it was given: a
    transaction set is written to the host only if it is the set [Sign]
    returned, and a set is submitted to the pool only if it is the set read
    from the host after the host answered with the accept token. *)
Theorem negotiateContract_passes_on {W : Type} (h : handler W) (w : W)
    (conn : Conn) (host : HostDBEntry) (fc : FileContract) (b : Builder) :
  (forall c' ts,
     In (EncodingWriteObject c' (ObjTxnSet ts))
        (reqs (trace_of (run h (negotiateContract conn host fc b) w))) ->
     c' = conn /\
     sign_answers (trace_of (run h (negotiateContract conn host fc b) w))
       = [inl ts]) /\
  (forall ts,
     In (TpoolAcceptTransactionSet ts)
        (reqs (trace_of (run h (negotiateContract conn host fc b) w))) ->
     host_txn_sets (trace_of (run h (negotiateContract conn host fc b) w)) = [ts] /\
     host_responses (trace_of (run h (negotiateContract conn host fc b) w))
       = [AcceptResponse]).
Proof.
  apply (proj1 (wpr_run h (negotiateContract conn host fc b) w
                  (fun _ _ tr =>
                     (forall c' ts,
                        In (EncodingWriteObject c' (ObjTxnSet ts)) (reqs tr) ->
                        c' = conn /\ sign_answers tr = [inl ts]) /\
                     (forall ts,
                        In (TpoolAcceptTransactionSet ts) (reqs tr) ->
                        host_txn_sets tr = [ts] /\
                        host_responses tr = [AcceptResponse])))).
  unfold negotiateContract.
  repeat wstep; accepted_token; split.
  all: first
    [ intros c' ts Hin; in_reqs Hin;
      try (injection Hin as <- <-; split; reflexivity)
    | intros ts Hin; in_reqs Hin;
      try (injection Hin as <-; split; reflexivity) ].
Qed.

(** X11. When [FundSiacoins] fails, [negotiateContract] returns that very
    error, tells the host "internal error" as its last act, and has asked
    for no signature. *)
Theorem funding_failure_aborts {W : Type} (h : handler W) (w : W)
    (conn : Conn) (host : HostDBEntry) (fc : FileContract) (b : Builder)
    (e : error) :
  In (Some e) (fund_answers (trace_of (run h (negotiateContract conn host fc b) w))) ->
  result_of (run h (negotiateContract conn host fc b) w) = Some (inr e) /\
  last (reqs (trace_of (run h (negotiateContract conn host fc b) w)))
    = Some (EncodingWriteObject conn (ObjString "internal error")) /\
  sign_answers (trace_of (run h (negotiateContract conn host fc b) w)) = [].
Proof.
  apply (proj1 (wpr_run h (negotiateContract conn host fc b) w
                  (fun r _ tr =>
                     In (Some e) (fund_answers tr) ->
                     r = Some (inr e) /\
                     last (reqs tr)
                       = Some (EncodingWriteObject conn (ObjString "internal error")) /\
                     sign_answers tr = []))).
  unfold negotiateContract.
  repeat wstep; intros Hin;
    unfold fund_answers in Hin; cbn [omap list_omap fund_answer] in Hin;
    try contradiction.
  all: destruct Hin as [Hin|[]]; try discriminate Hin.
  injection Hin as <-. repeat split; reflexivity.
Qed.

Lemma lock_ok_app (l1 l2 : list req) :
  forall b, lock_ok b l1 = true -> lock_ok b (l1 ++ l2) = lock_ok false l2.
Proof.
  induction l1 as [|q l1 IH]; intros b Hb.
  - destruct b; [discriminate Hb|reflexivity].
  - destruct q, b; cbn in Hb |- *; try discriminate Hb; apply IH; exact Hb.
Qed.

Lemma spend_grows_refl (c : Contractor) : spend_grows c c.
Proof.
  unfold spend_grows. repeat split; try reflexivity.
  exists 0. rewrite !N.add_0_r. split; reflexivity.
Qed.

Lemma spend_grows_trans (c1 c2 c3 : Contractor) :
  spend_grows c1 c2 -> spend_grows c2 c3 -> spend_grows c1 c3.
Proof.
  intros (Hb1 & Hr1 & (d1 & Hp1 & Ht1) & Hd1) (Hb2 & Hr2 & (d2 & Hp2 & Ht2) & Hd2).
  unfold spend_grows. split; [congruence|]. split; [congruence|]. split.
  - exists (d1 + d2). rewrite Hp2, Ht2, Hp1, Ht1. split; lia.
  - etransitivity; eassumption.
Qed.

(** One call of [newContract] changes the contractor as [spend_grows]
    allows. *)
Lemma newContract_grows {W : Type} (h : handler W) (w : W)
    (c : Contractor) (host : HostDBEntry) (fs : N) (eh : BlockHeight)
    (r : result Contract) (c' : Contractor) :
  result_of (run h (newContract c host fs eh) w) = Some (r, c') ->
  spend_grows c c'.
Proof.
  intros Hr. pose proof (newContract_run h w c host fs eh) as P.
  rewrite Hr in P. cbv beta iota delta [newContract_post] in P.
  destruct r as [contract|err].
  - destruct P as (a & u & conn & _ & _ & _ & _ & -> & _).
    unfold spend_grows, recordContract, Currency_Add. cbn.
    repeat split; try reflexivity.
    + eexists. split; reflexivity.
    + rewrite dom_insert_L. set_solver.
  - destruct P as [(_ & _ & -> & _)|[(_ & _ & _ & -> & _)|(_ & a & _ & -> & _)]];
      try apply spend_grows_refl.
    unfold spend_grows. cbn. repeat split; try reflexivity.
    exists 0. rewrite !N.add_0_r. split; reflexivity.
Qed.

(** The loop of [formContracts] keeps the lock discipline and changes the
    contractor as [spend_grows] allows. *)
Lemma formLoop_inv {W : Type} (h : handler W) (a : Allowance) (fs : N)
    (eh : BlockHeight) :
  forall hosts n c w,
    lock_ok false (reqs (trace_of (run h (formLoop hosts a fs eh n c) w))) = true /\
    forall c', result_of (run h (formLoop hosts a fs eh n c) w) = Some c' ->
               spend_grows c c'.
Proof.
  induction hosts as [|h0 rest IH]; intros n c w.
  - cbn. split; [reflexivity|]. intros c' [= <-]. apply spend_grows_refl.
  - cbn [formLoop]. rewrite run_bind.
    pose proof (newContract_lock_discipline h w c h0 fs eh) as L1.
    pose proof (newContract_grows h w c h0 fs eh) as G1.
    destruct (run h (newContract c h0 fs eh) w) as [[[[r c1]|] w1] tr1];
      cbn [result_of trace_of fst snd] in L1, G1 |- *; [|split; [exact L1|discriminate]].
    specialize (G1 r c1 eq_refl).
    rewrite run_bind.
    assert (Hrest : forall w2,
              lock_ok false
                (reqs (trace_of
                   (run h (if Hosts a <=? add64 n 1 then Ret c1
                           else formLoop rest a fs eh (add64 n 1) c1) w2))) = true /\
              forall c', result_of
                   (run h (if Hosts a <=? add64 n 1 then Ret c1
                           else formLoop rest a fs eh (add64 n 1) c1) w2) = Some c' ->
                         spend_grows c1 c').
    { intros w2. destruct (Hosts a <=? add64 n 1).
      - cbn. split; [reflexivity|]. intros c' [= <-]. apply spend_grows_refl.
      - apply IH. }
    destruct r as [contract|err]; cbn [run ask].
    + specialize (Hrest w1).
      destruct (run h _ w1) as [[r2 w2] tr2]; cbn [result_of trace_of fst snd] in *.
      destruct Hrest as (L2 & G2). split.
      * unfold reqs in *. rewrite !map_app, (lock_ok_app _ _ _ L1). exact L2.
      * intros c' Hc'. exact (spend_grows_trans _ _ _ G1 (G2 c' Hc')).
    + destruct (h (LogPrintln _ _ _) w1) as [x wl]. cbn [run].
      specialize (Hrest wl).
      destruct (run h _ wl) as [[r2 w2] tr2]; cbn [result_of trace_of fst snd] in *.
      destruct Hrest as (L2 & G2). split.
      * unfold reqs in *. rewrite !map_app, (lock_ok_app _ _ _ L1).
        cbn. exact L2.
      * intros c' Hc'. exact (spend_grows_trans _ _ _ G1 (G2 c' Hc')).
Qed.

(** What an error of the arithmetic of [formContracts] tells. *)
Lemma planFilesize_error_inv (a : Allowance) (hosts : list HostDBEntry) (e : error) :
  planFilesize a hosts = PlanError e ->
  (e = errNotEnoughHosts /\ N.of_nat (length hosts) < Hosts a) \/
  (e = errInsufficientFunds /\ Funds a < costPerSector a hosts) \/
  (e = errTooLarge /\ MaxUint64 < Funds a / costPerSector a hosts).
Proof.
  unfold planFilesize, Currency_Div, Currency_Mul, NewCurrency64, Currency_Uint64.
  destruct (N.of_nat (length hosts) <? Hosts a) eqn:Hlen.
  { intros [= <-]. left. split; [reflexivity|]. apply N.ltb_lt. exact Hlen. }
  destruct (N.of_nat (length hosts) =? 0); [discriminate|].
  fold (avgPrice hosts). fold (costPerSector a hosts).
  destruct (Currency_Cmp (Funds a) (costPerSector a hosts) <? 0)%Z eqn:Hc.
  { intros [= <-]. right. left. split; [reflexivity|]. apply Cmp_lt. exact Hc. }
  destruct (costPerSector a hosts =? 0); [discriminate|].
  destruct (MaxUint64 <? Funds a / costPerSector a hosts) eqn:Hq; [|discriminate].
  intros [= <-]. right. right. split; [reflexivity|]. apply N.ltb_lt. exact Hq.
Qed.

(** What a filesize from the arithmetic of [formContracts] tells. *)
Lemma planFilesize_ok_inv (a : Allowance) (hosts : list HostDBEntry) (fs : N) :
  planFilesize a hosts = PlanFilesize fs ->
  Hosts a <= N.of_nat (length hosts) /\
  0 < costPerSector a hosts /\
  costPerSector a hosts <= Funds a /\
  Funds a / costPerSector a hosts <= MaxUint64 /\
  fs = mul64 (Funds a / costPerSector a hosts) SectorSize.
Proof.
  unfold planFilesize, Currency_Div, Currency_Mul, NewCurrency64, Currency_Uint64.
  destruct (N.of_nat (length hosts) <? Hosts a) eqn:Hlen; [discriminate|].
  destruct (N.of_nat (length hosts) =? 0); [discriminate|].
  fold (avgPrice hosts). fold (costPerSector a hosts).
  destruct (Currency_Cmp (Funds a) (costPerSector a hosts) <? 0)%Z eqn:Hc;
    [discriminate|].
  destruct (costPerSector a hosts =? 0) eqn:Hz; [discriminate|].
  destruct (MaxUint64 <? Funds a / costPerSector a hosts) eqn:Hq; [discriminate|].
  intros [= <-].
  apply N.ltb_ge in Hlen. apply N.eqb_neq in Hz. apply N.ltb_ge in Hq.
  assert (~ Funds a < costPerSector a hosts).
  { intros Hlt. apply Cmp_lt in Hlt. congruence. }
  repeat split; try assumption; lia.
Qed.

(** X12. A filesize planned by [formContracts] that did not wrap is a whole
    number of sectors, at least one, and storing it with [Hosts] hosts for
    [Period] blocks at the averaged price costs no more than the funds. *)
Theorem planned_filesize_is_affordable (a : Allowance)
    (hosts : list HostDBEntry) (fs : N) :
  planFilesize a hosts = PlanFilesize fs ->
  Funds a / costPerSector a hosts * SectorSize < 2 ^ 64 ->
  fs = Funds a / costPerSector a hosts * SectorSize /\
  SectorSize <= fs /\
  avgPrice hosts * Hosts a * fs * Period a <= Funds a.
Proof.
  intros Hplan Hsmall.
  destruct (planFilesize_ok_inv a hosts fs Hplan) as (_ & Hpos & Hfund & _ & ->).
  unfold mul64, wrap64. rewrite N.mod_small by exact Hsmall.
  set (q := Funds a / costPerSector a hosts) in *.
  assert (Hq1 : 1 <= q).
  { unfold q. apply N.div_le_lower_bound; lia. }
  assert (Hqc : q * costPerSector a hosts <= Funds a).
  { unfold q. rewrite N.mul_comm. apply N.Div0.mul_div_le. }
  split; [reflexivity|]. split.
  - apply (N.mul_le_mono_r _ _ SectorSize) in Hq1. lia.
  - unfold costPerSector in Hqc |- *.
    replace (avgPrice hosts * Hosts a * (q * SectorSize) * Period a)
      with (q * (avgPrice hosts * Hosts a * SectorSize * Period a)) by lia.
    exact Hqc.
Qed.

(** The shape of every run of [formContracts], by what the arithmetic on
    the sampled hosts gives. *)
Lemma formContracts_shape {W : Type} (h : handler W) (w : W)
    (c : Contractor) (a : Allowance) :
  lock_ok false (reqs (trace_of (run h (formContracts c a) w))) = true /\
  match planFilesize a
          (h (HdbRandomHosts (int_of_uint64 (mul64 2 (Hosts a)))) w).1 with
  | PlanPanic => result_of (run h (formContracts c a) w) = None
  | PlanError e =>
      result_of (run h (formContracts c a) w) = Some (Some e, c) /\
      reqs (trace_of (run h (formContracts c a) w))
        = [HdbRandomHosts (int_of_uint64 (mul64 2 (Hosts a)))]
  | PlanFilesize _ =>
      match result_of (run h (formContracts c a) w) with
      | None => True
      | Some (e, c') =>
          e = None /\
          renewHeight c' = add64 (blockHeight c) (Period a) /\
          blockHeight c' = blockHeight c /\
          (exists d, spentPeriod c' = spentPeriod c + d /\
                     spentTotal c' = spentTotal c + d) /\
          dom (contracts c) ⊆ dom (contracts c') /\
          exists pre,
            reqs (trace_of (run h (formContracts c a) w))
              = pre ++ [MuLock; MuUnlock]
      end
  end.
Proof.
  unfold formContracts. cbn [bind ask run].
  destruct (h (HdbRandomHosts (int_of_uint64 (mul64 2 (Hosts a)))) w)
    as [hosts w1]. cbn [fst].
  destruct (planFilesize a hosts) as [|e|fs].
  - split; reflexivity.
  - split; [reflexivity|]. split; reflexivity.
  - cbn [bind run].
    destruct (h MuRLock w1) as [x1 w2]. destruct (h MuRUnlock w2) as [x2 w3].
    rewrite run_bind.
    destruct (formLoop_inv h a fs (add64 (blockHeight c) (Period a))
                hosts 0 c w3) as (L & G).
    destruct (run h (formLoop hosts a fs (add64 (blockHeight c) (Period a)) 0 c) w3)
      as [[[c2|] w4] tr2]; cbn [result_of trace_of fst snd] in L, G |- *.
    + cbn [run]. destruct (h MuLock w4) as [x3 w5].
      destruct (h MuUnlock w5) as [x4 w6]. cbn [result_of trace_of fst snd].
      destruct (G c2 eq_refl) as (Hb & _ & Hd & Hdom).
      split.
      * unfold reqs in *. cbn [map call_req lock_ok negb andb].
        rewrite map_app, (lock_ok_app _ _ _ L). reflexivity.
      * split; [reflexivity|]. split; [reflexivity|]. split; [exact Hb|].
        split; [exact Hd|]. split; [exact Hdom|].
        eexists (_ :: _ :: _ :: _). unfold reqs. cbn [map call_req].
        rewrite map_app. reflexivity.
    + split; [|exact I]. unfold reqs in *. cbn [map call_req lock_ok negb andb].
      exact L.
Qed.

Lemma rw_ok_app (l1 l2 : list req) :
  forall m, rw_ok m l1 = true -> rw_ok m (l1 ++ l2) = rw_ok Free l2.
Proof.
  induction l1 as [|q l1 IH]; intros m Hm.
  - destruct m; [reflexivity|discriminate Hm|discriminate Hm].
  - destruct q, m; cbn in Hm |- *; try discriminate Hm; apply IH; exact Hm.
Qed.

(** Every run of [newContract] drives the mutex as [rw_ok] says. *)
Lemma newContract_rw_ok {W : Type} (h : handler W) (w : W)
    (c : Contractor) (host : HostDBEntry) (fs : N) (eh : BlockHeight) :
  rw_ok Free (reqs (trace_of (run h (newContract c host fs eh) w))) = true.
Proof.
  apply (proj1 (wpr_run h (newContract c host fs eh) w
                  (fun _ _ tr => rw_ok Free (reqs tr) = true))).
  unfold newContract, verifySettings, negotiateContract.
  repeat wstep; reflexivity.
Qed.

(** So does every run of the loop of [formContracts]. *)
Lemma formLoop_rw_ok {W : Type} (h : handler W) (a : Allowance) (fs : N)
    (eh : BlockHeight) :
  forall hosts n c w,
    rw_ok Free (reqs (trace_of (run h (formLoop hosts a fs eh n c) w))) = true.
Proof.
  induction hosts as [|h0 rest IH]; intros n c w; [reflexivity|].
  cbn [formLoop]. rewrite run_bind.
  pose proof (newContract_rw_ok h w c h0 fs eh) as L1.
  destruct (run h (newContract c h0 fs eh) w) as [[[[r c1]|] w1] tr1];
    cbn [result_of trace_of fst snd] in L1 |- *; [|exact L1].
  rewrite run_bind.
  assert (Hrest : forall w2,
            rw_ok Free
              (reqs (trace_of
                 (run h (if Hosts a <=? add64 n 1 then Ret c1
                         else formLoop rest a fs eh (add64 n 1) c1) w2))) = true).
  { intros w2. destruct (Hosts a <=? add64 n 1); [reflexivity|apply IH]. }
  destruct r as [contract|err]; cbn [run ask].
  - specialize (Hrest w1).
    destruct (run h _ w1) as [[r2 w2] tr2]; cbn [result_of trace_of fst snd] in *.
    unfold reqs in *. rewrite !map_app, (rw_ok_app _ _ _ L1). exact Hrest.
  - destruct (h (LogPrintln _ _ _) w1) as [x wl]. cbn [run].
    specialize (Hrest wl).
    destruct (run h _ wl) as [[r2 w2] tr2]; cbn [result_of trace_of fst snd] in *.
    unfold reqs in *. rewrite !map_app, (rw_ok_app _ _ _ L1).
    cbn. exact Hrest.
Qed.

(** X13. [formContracts] drives the mutex correctly through the whole pass,
    with the read lock and the write lock kept apart ([rw_ok]), and takes
    its own locks where the source has them.  After the sampling, a pass
    whose arithmetic fails makes no further call.  Otherwise the pass takes
    and releases the read lock, with no call in between; runs the loop with
    the end height [blockHeight + Period] of the contractor it was given;
    and, if the loop returns, takes the write lock, releases it, and returns
    [nil] with the renewal height of the contractor the loop left set to
    that same end height.  Nothing else is called. *)
Theorem formContracts_lock_discipline {W : Type} (h : handler W) (w : W)
    (c : Contractor) (a : Allowance) :
  rw_ok Free (reqs (trace_of (run h (formContracts c a) w))) = true /\
  match planFilesize a
          (h (HdbRandomHosts (int_of_uint64 (mul64 2 (Hosts a)))) w).1 with
  | PlanPanic =>
      result_of (run h (formContracts c a) w) = None /\
      reqs (trace_of (run h (formContracts c a) w))
        = [HdbRandomHosts (int_of_uint64 (mul64 2 (Hosts a)))]
  | PlanError e =>
      result_of (run h (formContracts c a) w) = Some (Some e, c) /\
      reqs (trace_of (run h (formContracts c a) w))
        = [HdbRandomHosts (int_of_uint64 (mul64 2 (Hosts a)))]
  | PlanFilesize fs =>
      match result_of
              (run h (formLoop
                        (h (HdbRandomHosts (int_of_uint64 (mul64 2 (Hosts a)))) w).1
                        a fs (add64 (blockHeight c) (Period a)) 0 c)
                   (world_after h
                      [HdbRandomHosts (int_of_uint64 (mul64 2 (Hosts a)));
                       MuRLock; MuRUnlock] w)) with
      | Some c2 =>
          result_of (run h (formContracts c a) w)
            = Some (None, set_renewHeight c2 (add64 (blockHeight c) (Period a))) /\
          reqs (trace_of (run h (formContracts c a) w))
            = [HdbRandomHosts (int_of_uint64 (mul64 2 (Hosts a))); MuRLock; MuRUnlock]
              ++ reqs (trace_of
                   (run h (formLoop
                        (h (HdbRandomHosts (int_of_uint64 (mul64 2 (Hosts a)))) w).1
                        a fs (add64 (blockHeight c) (Period a)) 0 c)
                      (world_after h
                         [HdbRandomHosts (int_of_uint64 (mul64 2 (Hosts a)));
                          MuRLock; MuRUnlock] w)))
              ++ [MuLock; MuUnlock]
      | None =>
          result_of (run h (formContracts c a) w) = None /\
          reqs (trace_of (run h (formContracts c a) w))
            = [HdbRandomHosts (int_of_uint64 (mul64 2 (Hosts a))); MuRLock; MuRUnlock]
              ++ reqs (trace_of
                   (run h (formLoop
                        (h (HdbRandomHosts (int_of_uint64 (mul64 2 (Hosts a)))) w).1
                        a fs (add64 (blockHeight c) (Period a)) 0 c)
                      (world_after h
                         [HdbRandomHosts (int_of_uint64 (mul64 2 (Hosts a)));
                          MuRLock; MuRUnlock] w)))
      end
  end.
Proof.
  unfold formContracts. cbn [bind ask run world_after].
  destruct (h (HdbRandomHosts (int_of_uint64 (mul64 2 (Hosts a)))) w)
    as [hosts w1]. cbn [fst snd].
  destruct (planFilesize a hosts) as [|e|fs].
  - split; [reflexivity|]. split; reflexivity.
  - split; [reflexivity|]. split; reflexivity.
  - cbn [bind run].
    destruct (h MuRLock w1) as [x1 w2]. cbn [fst snd].
    destruct (h MuRUnlock w2) as [x2 w3]. cbn [fst snd].
    rewrite run_bind.
    pose proof (formLoop_rw_ok h a fs (add64 (blockHeight c) (Period a))
                  hosts 0 c w3) as L.
    destruct (run h (formLoop hosts a fs (add64 (blockHeight c) (Period a)) 0 c) w3)
      as [[[c2|] w4] tr2]; cbn [result_of trace_of fst snd] in L |- *.
    + cbn [run]. destruct (h MuLock w4) as [x3 w5].
      destruct (h MuUnlock w5) as [x4 w6]. cbn [result_of trace_of fst snd].
      split.
      * unfold reqs in *. cbn [map call_req rw_ok].
        rewrite map_app, (rw_ok_app _ _ _ L). reflexivity.
      * split; [reflexivity|]. unfold reqs. cbn [map call_req app].
        rewrite map_app. reflexivity.
    + split.
      * unfold reqs in *. cbn [map call_req rw_ok]. exact L.
      * split; reflexivity.
Qed.

(** X14. The only errors [formContracts] returns are the three of its
    arithmetic - not enough hosts, insufficient funds, allowance too large.
    When it returns one, the contractor is unchanged and sampling the host
    database is the only call it has made: no host was contacted. *)
Theorem formContracts_errors {W : Type} (h : handler W) (w : W)
    (c : Contractor) (a : Allowance) (err : error) (c' : Contractor) :
  result_of (run h (formContracts c a) w) = Some (Some err, c') ->
  c' = c /\
  reqs (trace_of (run h (formContracts c a) w))
    = [HdbRandomHosts (int_of_uint64 (mul64 2 (Hosts a)))] /\
  (err = errNotEnoughHosts \/ err = errInsufficientFunds \/ err = errTooLarge).
Proof.
  intros Hr. destruct (formContracts_shape h w c a) as (_ & S).
  destruct (planFilesize a _) as [|e|fs] eqn:Hplan.
  - rewrite Hr in S. discriminate S.
  - destruct S as (Hres & Htr). rewrite Hr in Hres. injection Hres as -> ->.
    split; [reflexivity|]. split; [exact Htr|].
    destruct (planFilesize_error_inv _ _ _ Hplan) as [(-> & _)|[(-> & _)|(-> & _)]];
      auto.
  - rewrite Hr in S. destruct S as (He & _). discriminate He.
Qed.

(** X15. When the host database returns fewer hosts than the allowance
    asks for, [formContracts] fails with "not enough hosts" right after the
    sampling. *)
Theorem formContracts_not_enough_hosts {W : Type} (h : handler W) (w : W)
    (c : Contractor) (a : Allowance) :
  N.of_nat (length (h (HdbRandomHosts (int_of_uint64 (mul64 2 (Hosts a)))) w).1)
    < Hosts a ->
  result_of (run h (formContracts c a) w) = Some (Some errNotEnoughHosts, c) /\
  reqs (trace_of (run h (formContracts c a) w))
    = [HdbRandomHosts (int_of_uint64 (mul64 2 (Hosts a)))].
Proof.
  intros Hlen. apply formContracts_plan_error.
  unfold planFilesize. rewrite (proj2 (N.ltb_lt _ _) Hlen). reflexivity.
Qed.

(** X16. When enough hosts are sampled and the funds are below the cost of
    one sector per host for the period at the averaged price,
    [formContracts] fails with "insufficient funds" right after the
    sampling. *)
Theorem formContracts_insufficient_funds {W : Type} (h : handler W) (w : W)
    (c : Contractor) (a : Allowance) :
  Hosts a <= N.of_nat
    (length (h (HdbRandomHosts (int_of_uint64 (mul64 2 (Hosts a)))) w).1) ->
  (h (HdbRandomHosts (int_of_uint64 (mul64 2 (Hosts a)))) w).1 <> [] ->
  Funds a < costPerSector a
              (h (HdbRandomHosts (int_of_uint64 (mul64 2 (Hosts a)))) w).1 ->
  result_of (run h (formContracts c a) w) = Some (Some errInsufficientFunds, c) /\
  reqs (trace_of (run h (formContracts c a) w))
    = [HdbRandomHosts (int_of_uint64 (mul64 2 (Hosts a)))].
Proof.
  intros Hlen Hne Hlt. apply formContracts_plan_error.
  set (hosts := (h _ w).1) in *.
  unfold planFilesize, Currency_Div, Currency_Mul, NewCurrency64.
  rewrite (proj2 (N.ltb_ge _ _) Hlen).
  assert (Hn : N.of_nat (length hosts) <> 0) by (destruct hosts; [congruence|cbn; lia]).
  rewrite (proj2 (N.eqb_neq _ _) Hn).
  fold (avgPrice hosts). fold (costPerSector a hosts).
  rewrite (proj2 (Cmp_lt _ _) Hlt). reflexivity.
Qed.

(** X17. When [formContracts] returns without error - however many of the
    attempts failed - the renewal height is the height at the start plus
    the period (in 64 bits), written in a last critical section; the block
    height is unchanged, both spending counters have grown by the same
    amount, and every contract held before is still held. *)
Theorem formContracts_sets_renew_height {W : Type} (h : handler W) (w : W)
    (c : Contractor) (a : Allowance) (c' : Contractor) :
  result_of (run h (formContracts c a) w) = Some (None, c') ->
  renewHeight c' = add64 (blockHeight c) (Period a) /\
  blockHeight c' = blockHeight c /\
  (exists d, spentPeriod c' = spentPeriod c + d /\
             spentTotal c' = spentTotal c + d) /\
  dom (contracts c) ⊆ dom (contracts c') /\
  exists pre,
    reqs (trace_of (run h (formContracts c a) w)) = pre ++ [MuLock; MuUnlock].
Proof.
  intros Hr. destruct (formContracts_shape h w c a) as (_ & S).
  destruct (planFilesize a _) as [|e|fs].
  - rewrite Hr in S. discriminate S.
  - destruct S as (Hres & _). rewrite Hr in Hres. discriminate Hres.
  - rewrite Hr in S. destruct S as (_ & S). exact S.
Qed.

(** X22. With a non-zero cached address [newContract] does not ask the
    wallet for an address.  The cached address is the one the renter's
    payouts of a formed contract go to, after which the cache is empty; a
    failed attempt leaves it cached. *)
Theorem newContract_reuses_cached_address {W : Type} (h : handler W) (w : W)
    (c : Contractor) (host : HostDBEntry) (fs : N) (eh : BlockHeight) :
  cachedAddress c <> 0 ->
  ~ In WalletNextAddress (reqs (trace_of (run h (newContract c host fs eh) w))) /\
  match result_of (run h (newContract c host fs eh) w) with
  | Some (inl contract, c') =>
      cachedAddress c' = 0 /\
      exists v m,
        fc_ValidProofOutputs (ct_FileContract contract) !! 0%nat = Some v /\
        fc_MissedProofOutputs (ct_FileContract contract) !! 0%nat = Some m /\
        sco_UnlockHash v = cachedAddress c /\
        sco_UnlockHash m = cachedAddress c
  | Some (inr _, c') => cachedAddress c' = cachedAddress c
  | None => True
  end.
Proof.
  intros Hc. split; [exact (cached_address_reused h w c host fs eh Hc)|].
  pose proof (newContract_run h w c host fs eh) as P.
  destruct (result_of (run h (newContract c host fs eh) w))
    as [[[contract|err] c']|]; cbv beta iota delta [newContract_post] in P;
    [| |exact I].
  - destruct P as (a & u & conn & Ha & _ & _ & Hfc & -> & _).
    destruct Ha as [(-> & _)|(Hz & _)]; [|contradiction].
    split; [reflexivity|]. rewrite Hfc. cbn.
    eexists _, _. repeat split; reflexivity.
  - destruct P as [(_ & _ & -> & _)|[(_ & Hz & _)|(_ & a & Ha & -> & _)]].
    + reflexivity.
    + contradiction.
    + destruct Ha as [(-> & _)|(Hz & _)]; [reflexivity|contradiction].
Qed.

End Proofs.

(** ** The peer list of the gateway *)

Set Warnings "-clear-no-such-hyp".

Lemma addPeer_peers (peers : gset string) (peer : string) :
  (Gateway.addPeer peers peer).2 = {[peer]} ∪ peers.
Proof.
  unfold Gateway.addPeer. case_bool_decide; cbn; set_solver.
Qed.

Lemma addPeers_union (loaded : list string) :
  forall peers : gset string,
    Gateway.addPeers peers loaded = peers ∪ list_to_set loaded.
Proof.
  unfold Gateway.addPeers.
  induction loaded as [|p l IH]; intros peers; cbn.
  - set_solver.
  - rewrite IH, addPeer_peers. set_solver.
Qed.

Lemma pick_member (order : list string) :
  forall r, (r < length order)%nat ->
    exists p, Gateway.pick order r = Gateway.Picked p /\ In p order.
Proof.
  induction order as [|p0 rest IH]; intros r Hr; cbn in Hr; [lia|].
  destruct r as [|r']; cbn.
  - exists p0. split; [reflexivity|]. left. reflexivity.
  - destruct (IH r') as (p & Hp & Hin); [lia|].
    exists p. split; [exact Hp|]. right. exact Hin.
Qed.

(** X18. [addPeer] and [removePeer] undo each other: adding a peer that is
    not in the list succeeds and removing it again gives back the list;
    removing a peer that is in the list succeeds and adding it again gives
    back the list. *)
Theorem addPeer_removePeer_round_trip (peers : gset string) (peer : string) :
  (peer ∉ peers ->
   (Gateway.addPeer peers peer).1 = None /\
   Gateway.removePeer (Gateway.addPeer peers peer).2 peer = (None, peers)) /\
  (peer ∈ peers ->
   (Gateway.removePeer peers peer).1 = None /\
   Gateway.addPeer (Gateway.removePeer peers peer).2 peer = (None, peers)).
Proof.
  unfold Gateway.addPeer, Gateway.removePeer. split; intros Hin.
  - rewrite (bool_decide_eq_false_2 _ Hin). cbn.
    split; [reflexivity|].
    rewrite bool_decide_eq_true_2 by set_solver. cbn.
    f_equal. set_solver.
  - rewrite (bool_decide_eq_true_2 _ Hin). cbn.
    split; [reflexivity|].
    rewrite bool_decide_eq_false_2 by set_solver.
    f_equal. apply set_eq. intros x. rewrite elem_of_union, elem_of_singleton,
      elem_of_difference, elem_of_singleton.
    destruct (decide (x = peer)) as [->|Hne]; tauto.
Qed.

(** X19. A peer is never listed twice and never removed twice: adding a
    peer that is in the list fails with "peer already added", removing one
    that is not fails with "no record of that peer", and in both cases the
    list stays as it is; after [addPeer] the peer is in the list and after
    [removePeer] it is not, whether or not the call reported an error. *)
Theorem addPeer_removePeer_errors (peers : gset string) (peer : string) :
  (peer ∈ peers ->
   Gateway.addPeer peers peer = (Some Gateway.errAlreadyAdded, peers)) /\
  (peer ∉ peers ->
   Gateway.removePeer peers peer = (Some Gateway.errNoRecord, peers)) /\
  peer ∈ (Gateway.addPeer peers peer).2 /\
  peer ∉ (Gateway.removePeer peers peer).2.
Proof.
  unfold Gateway.addPeer, Gateway.removePeer. repeat split.
  - intros Hin. rewrite (bool_decide_eq_true_2 _ Hin). reflexivity.
  - intros Hin. rewrite (bool_decide_eq_false_2 _ Hin). reflexivity.
  - case_bool_decide; cbn; set_solver.
  - case_bool_decide; cbn; set_solver.
Qed.

(** X20. [load] either fails - the file cannot be read or its contents
    cannot be decoded - and leaves the peer list as it is, or it succeeds
    and the list is then the old list together with all decoded peers:
    peers already listed and peers named twice in the file are no error,
    and no peer is dropped. *)
Theorem load_adds_decoded_peers (readFile : result (list Byte.byte))
    (unmarshal : list Byte.byte -> result (list string))
    (peers : gset string) :
  match Gateway.load readFile unmarshal peers with
  | (None, peers') =>
      exists contents loaded,
        readFile = inl contents /\
        unmarshal contents = inl loaded /\
        peers' = peers ∪ list_to_set loaded
  | (Some err, peers') =>
      peers' = peers /\
      (readFile = inr err \/
       exists contents, readFile = inl contents /\ unmarshal contents = inr err)
  end.
Proof.
  unfold Gateway.load.
  destruct readFile as [contents|err].
  - destruct (unmarshal contents) as [loaded|err] eqn:Hu.
    + exists contents, loaded. repeat split; try assumption.
      apply addPeers_union.
    + split; [reflexivity|]. right. exists contents. split; [reflexivity|assumption].
  - split; [reflexivity|]. left. reflexivity.
Qed.

(** X21. [randomPeer] never returns [ErrNoPeers].  With at least one peer
    it returns a peer of the list; with an empty list the call
    [rand.Intn(0)] panics before the loop is reached. *)
Theorem randomPeer_picks_member (Intn : nat -> option nat)
    (order : list string) :
  Gateway.Intn_contract Intn ->
  Gateway.randomPeer Intn order <> Gateway.ErrNoPeers /\
  (order = [] -> Gateway.randomPeer Intn order = Gateway.PickPanic) /\
  (order <> [] ->
   exists p, Gateway.randomPeer Intn order = Gateway.Picked p /\ In p order).
Proof.
  intros (Hzero & Hpos). unfold Gateway.randomPeer, Gateway.Address.
  destruct order as [|p0 rest].
  - cbn. rewrite Hzero. repeat split; congruence.
  - destruct (Hpos (length (p0 :: rest))) as (r & Hr & Hlt); [cbn; lia|].
    rewrite Hr.
    destruct (pick_member (p0 :: rest) r Hlt) as (p & Hp & Hin).
    rewrite Hp. split; [discriminate|]. split; [discriminate|].
    intros _. exists p. split; [reflexivity|exact Hin].
Qed.

(** ** The claims on concrete runs *)

Section Concrete.
Import Demo.
Import Cases.

(** The rejected attempt gives the funds back: the wallet of the concrete
    collaborators ends with the balance it started with. *)
Lemma rejected_attempt_releases_funds :
  available (world_of (run collab (newContract contractor0 goodHost 4194304 200)
                           world_reject)) = available world_reject /\
  held (world_of (run collab (newContract contractor0 goodHost 4194304 200)
                      world_reject)) = 0.
Proof. split; vm_compute; reflexivity. Qed.

(** C1, on the code.  With a target of one host and two sampled candidates
    of which the first is above the price ceiling, [formContracts] logs the
    failure of the first candidate and stops: no contract is formed, and the
    second candidate, with which a contract of the same size can be formed,
    is never tried. *)
Theorem formContracts_counts_failed_attempt :
  exists c' filesize,
    planFilesize allowance1 [expensiveHost; goodHost] = PlanFilesize filesize /\
    result_of (run collab (formContracts contractor0 allowance1) world_two)
      = Some (None, c') /\
    contracts c' = ∅ /\
    reqs (trace_of (run collab (formContracts contractor0 allowance1) world_two))
      = [HdbRandomHosts 2; MuRLock; MuRUnlock;
         LogPrintln "WARN: failed to negotiate contract:"%string
                    "dear:9982"%string errTooExpensive;
         MuLock; MuUnlock] /\
    exists contract c'',
      result_of (run collab (newContract c' goodHost filesize 200) world_two)
        = Some (inl contract, c'').
Proof.
  eexists _, _. split; [vm_compute; reflexivity|].
  split; [vm_compute; reflexivity|].
  split; [reflexivity|]. split; [vm_compute; reflexivity|].
  eexists _, _. vm_compute. reflexivity.
Qed.

(** C2, the claim as stated fails: after an attempt that reserved an
    address and was then rejected by the host, the cached address is the
    reserved one, not the zero value. *)
Lemma failed_attempt_leaves_address_cached :
  exists err c',
    result_of (run collab (newContract contractor0 goodHost 4194304 200)
                   world_reject) = Some (inr err, c') /\
    reserved_addresses
      (trace_of (run collab (newContract contractor0 goodHost 4194304 200)
                     world_reject)) = [102] /\
    cachedAddress c' = 102 /\
    cachedAddress c' <> 0.
Proof.
  eexists _, _. split; [vm_compute; reflexivity|].
  split; [vm_compute; reflexivity|]. split; [reflexivity|].
  intros H. discriminate H.
Qed.

Lemma failed_attempt_keeps_address_witness :
  exists err c',
    result_of (run collab (newContract contractor0 goodHost 4194304 200)
                   world_reject) = Some (inr err, c') /\
    ContractPrice goodHost <= maxPrice /\
    cachedAddress c'
      = address_used contractor0
          (trace_of (run collab (newContract contractor0 goodHost 4194304 200)
                         world_reject)) /\
    drafts_dropped
      (trace_of (run collab (newContract contractor0 goodHost 4194304 200)
                     world_reject)).
Proof.
  eexists _, _. split; [vm_compute; reflexivity|].
  split; [vm_compute; intros H; discriminate H|].
  refine (let H := failed_attempt_keeps_address collab world_reject
                     contractor0 goodHost 4194304 200 _ _ _ _ _ in
          conj (proj1 H) (proj2 (proj2 (proj2 (proj2 H))))).
  - vm_compute. reflexivity.
  - vm_compute. intros H. discriminate H.
  - right. vm_compute. intros H. discriminate H.
Defined.

(** C3, the claim as stated fails: for prices 1 and 2, one host, a period
    of 2 and funds of [3 * 2^23], the allowance passes the affordability
    check and nothing overflows; the code divides the sum 3 by 2, takes the
    mean price to be 1 and arrives at a filesize of [3 * 2^22], where the
    formula over the arithmetic mean 3/2 gives [2 * 2^22].  The pass on a
    host database with these two hosts returns [nil], and the contract it
    forms with the first host costs [1 * (3 * 2^22) * 2]. *)
Lemma mean_price_rounds_down :
  Hosts allowance_small <= N.of_nat (length unevenHosts) /\
  costPerSector allowance_small unevenHosts <= Funds allowance_small /\
  Funds allowance_small / costPerSector allowance_small unevenHosts * SectorSize
    < 2 ^ 64 /\
  planFilesize allowance_small unevenHosts = PlanFilesize (3 * 2 ^ 22) /\
  spec_filesize allowance_small unevenHosts = (2 * 2 ^ 22)%Z /\
  Z.of_N (3 * 2 ^ 22) <> spec_filesize allowance_small unevenHosts /\
  (collab (HdbRandomHosts (int_of_uint64 (mul64 2 (Hosts allowance_small))))
          world_uneven).1 = unevenHosts /\
  exists c',
    result_of (run collab (formContracts contractor0 allowance_small) world_uneven)
      = Some (None, c') /\
    spentPeriod c' = spentPeriod contractor0 + 1 * (3 * 2 ^ 22) * 2.
Proof.
  split; [vm_compute; intros H; discriminate H|].
  split; [vm_compute; intros H; discriminate H|].
  split; [vm_compute; reflexivity|].
  split; [vm_compute; reflexivity|]. split; [vm_compute; reflexivity|].
  split; [vm_compute; intros H; discriminate H|].
  split; [vm_compute; reflexivity|].
  eexists. split; [vm_compute; reflexivity|]. vm_compute. reflexivity.
Qed.

(** Apart from the rounding of the mean, the product of sector count and
    sector size is a 64-bit product that nothing checks: with an exact mean
    of 1, the sector count [2^42] fits in 64 bits, its product with the
    sector size does not, and the filesize comes out as 0. *)
Lemma filesize_wraps_around :
  planFilesize allowance_wrap evenHosts = PlanFilesize 0 /\
  spec_filesize allowance_wrap evenHosts = (2 ^ 64)%Z.
Proof. split; vm_compute; reflexivity. Qed.

Lemma filesize_from_budget_witness :
  Hosts allowance2 <= N.of_nat (length threeHosts) /\
  0 < costPerSector allowance2 threeHosts /\
  costPerSector allowance2 threeHosts <= Funds allowance2 /\
  Funds allowance2 / costPerSector allowance2 threeHosts * SectorSize < 2 ^ 64 /\
  planFilesize allowance2 threeHosts
    = PlanFilesize (Funds allowance2 / costPerSector allowance2 threeHosts * SectorSize).
Proof.
  assert (H1 : Hosts allowance2 <= N.of_nat (length threeHosts))
    by (vm_compute; intros H; discriminate H).
  assert (H2 : 0 < costPerSector allowance2 threeHosts)
    by (vm_compute; reflexivity).
  assert (H3 : costPerSector allowance2 threeHosts <= Funds allowance2)
    by (vm_compute; intros H; discriminate H).
  assert (H4 : Funds allowance2 / costPerSector allowance2 threeHosts * SectorSize
               < 2 ^ 64) by (vm_compute; reflexivity).
  repeat (split; [assumption|]).
  exact (proj1 (filesize_from_budget allowance2 threeHosts H1 H2 H3) H4).
Defined.

(** C4, the claim as stated fails: the host offers a collateral of 1000,
    and its valid-proof payout in the contract formed is 0. *)
Lemma host_valid_payout_without_collateral :
  exists contract c' v,
    result_of (run collab (newContract contractor0 goodHost 4194304 200) world0)
      = Some (inl contract, c') /\
    fc_ValidProofOutputs (ct_FileContract contract) !! 1%nat = Some v /\
    Collateral goodHost = 1000 /\
    Value v = 0 /\
    Value v <> Collateral goodHost.
Proof.
  eexists _, _, _. split; [vm_compute; reflexivity|].
  split; [reflexivity|]. split; [reflexivity|]. split; [reflexivity|].
  intros H. discriminate H.
Qed.

Lemma host_payouts_zero_witness :
  exists contract c',
    result_of (run collab (newContract contractor0 goodHost 4194304 200) world0)
      = Some (inl contract, c') /\
    fc_MissedProofOutputs (ct_FileContract contract) !! 1%nat
      = Some {| Value := ZeroCurrency; sco_UnlockHash := 0 |} /\
    fc_ValidProofOutputs (ct_FileContract contract) !! 1%nat
      = Some {| Value := ZeroCurrency; sco_UnlockHash := host_UnlockHash goodHost |} /\
    fc_Payout (ct_FileContract contract)
      = Currency_Add (renterCost goodHost 4194304 200 (blockHeight contractor0))
                     (Collateral goodHost).
Proof.
  eexists _, _. split; [vm_compute; reflexivity|].
  eapply (host_payouts_zero collab world0 contractor0 goodHost 4194304 200).
  vm_compute. reflexivity.
Defined.

Lemma renter_payouts_equal_witness :
  exists contract c',
    result_of (run collab (newContract contractor0 goodHost 4194304 200) world0)
      = Some (inl contract, c') /\
    exists v m,
      fc_ValidProofOutputs (ct_FileContract contract) !! 0%nat = Some v /\
      fc_MissedProofOutputs (ct_FileContract contract) !! 0%nat = Some m /\
      Value v = Value m /\
      Value v = PostTax (blockHeight contractor0)
                        (renterCost goodHost 4194304 200 (blockHeight contractor0)).
Proof.
  eexists _, _. split; [vm_compute; reflexivity|].
  eapply (renter_payouts_equal collab world0 contractor0 goodHost 4194304 200).
  vm_compute. reflexivity.
Defined.

Lemma newContract_records_formation_witness :
  exists contract c',
    result_of (run collab (newContract contractor0 goodHost 4194304 200) world0)
      = Some (inl contract, c') /\
    formation_recorded contractor0 c' contract
      (trace_of (run collab (newContract contractor0 goodHost 4194304 200) world0)).
Proof.
  eexists _, _. split; [vm_compute; reflexivity|].
  eapply (newContract_records_formation collab world0 contractor0 goodHost
            4194304 200).
  vm_compute. reflexivity.
Defined.

Lemma negotiateContract_duplicate_is_success_witness :
  In (Some ErrDuplicateTransactionSet)
     (pool_answers
        (trace_of (run collab (negotiateContract 1 goodHost twoOutputs 1) world_dup))) /\
  exists contract,
    result_of (run collab (negotiateContract 1 goodHost twoOutputs 1) world_dup)
      = Some (inl contract) /\
    IP contract = host_NetAddress goodHost.
Proof.
  assert (H : In (Some ErrDuplicateTransactionSet)
                (pool_answers
                   (trace_of (run collab (negotiateContract 1 goodHost twoOutputs 1)
                                  world_dup))))
    by (vm_compute; left; reflexivity).
  split; [exact H|].
  destruct (proj2 (negotiateContract_duplicate_is_success collab world_dup 1
                     goodHost twoOutputs 1 ErrDuplicateTransactionSet H)
                  eq_refl eq_refl eq_refl)
    as (contract & Hr & _ & Hip & _).
  exists contract. split; assumption.
Defined.

Lemma newContract_rejects_expensive_host_witness :
  maxPrice < ContractPrice expensiveHost /\
  run collab (newContract contractor0 expensiveHost 4194304 200) world0
    = (Some (inr errTooExpensive, contractor0), world0, []).
Proof.
  assert (H : maxPrice < ContractPrice expensiveHost) by (vm_compute; reflexivity).
  split; [exact H|].
  exact (newContract_rejects_expensive_host collab world0 contractor0
           expensiveHost 4194304 200 H).
Defined.

(** C9, the claim as stated fails: with an end height equal to the current
    height, a host above the price ceiling is rejected with
    [errTooExpensive], which is not the invalid-duration error. *)
Lemma past_end_height_not_always_invalid_duration :
  100 <= blockHeight contractor0 /\
  result_of (run collab (newContract contractor0 expensiveHost 4194304 100) world0)
    = Some (inr errTooExpensive, contractor0) /\
  errTooExpensive <> errPast.
Proof.
  split; [vm_compute; intros H; discriminate H|].
  split; [vm_compute; reflexivity|]. intros H. discriminate H.
Qed.

(** With a locked wallet and no cached address, the same call returns the
    wallet's error, and the contractor is as it was. *)
Lemma locked_wallet_error_is_returned :
  address_errors
    (trace_of (run collab_locked (newContract contractor0 goodHost 4194304 100)
                   world0)) = [errLockedWallet] /\
  run collab_locked (newContract contractor0 goodHost 4194304 100) world0
    = (Some (inr errLockedWallet, contractor0), world0,
       [Call MuLock tt; Call WalletNextAddress (inr errLockedWallet);
        Call MuUnlock tt]).
Proof. split; vm_compute; reflexivity. Qed.

Lemma newContract_rejects_past_end_height_witness :
  100 <= blockHeight contractor0 /\
  ContractPrice goodHost <= maxPrice /\
  exists c',
    result_of (run collab (newContract contractor0 goodHost 4194304 100) world0)
      = Some (inr errPast, c').
Proof.
  assert (H : 100 <= blockHeight contractor0)
    by (vm_compute; intros H; discriminate H).
  assert (Hp : ContractPrice goodHost <= maxPrice)
    by (vm_compute; intros H0; discriminate H0).
  split; [exact H|]. split; [exact Hp|].
  apply (proj1 (proj2 (newContract_rejects_past_end_height collab world0
                         contractor0 goodHost 4194304 100 H)) Hp).
  right. vm_compute. intros H0. discriminate H0.
Defined.

Lemma negotiateContract_indexing_in_bounds_witness :
  length (fc_ValidProofOutputs twoOutputs) = 2%nat /\
  length (fc_MissedProofOutputs twoOutputs) = 2%nat /\
  result_of (run collab (negotiateContract 1 goodHost twoOutputs 1) world0) <> None /\
  result_of (run collab (newContract contractor0 goodHost 4194304 200) world0) <> None.
Proof.
  assert (Hs : forall b' whole w0, (collab (BuilderSign b' whole) w0).1 <> inl [])
    by (intros b' whole w0 H; discriminate H).
  split; [reflexivity|]. split; [reflexivity|].
  refine (let H := negotiateContract_indexing_in_bounds collab world0 1 goodHost
                     twoOutputs 1 contractor0 4194304 200 100 103
                     Hs eq_refl eq_refl in
          conj (proj1 H) (fun Hr => _ (proj2 (proj2 (proj2 H)) Hr))).
  vm_compute. intros Hin. exact Hin.
Defined.

End Concrete.

(** ** The further properties on concrete runs *)

Section MoreConcrete.
Import Demo.
Import Cases.

Lemma verifySettings_rejects_unsupported_key_witness :
  Algorithm (PublicKey badKeyHost) <> SignatureEd25519 /\
  reqs (trace_of (run collab (verifySettings 1 badKeyHost) world0))
    = [BuildCritical
         "hostdb did not filter out host with wrong signature algorithm:"
         (Algorithm (PublicKey badKeyHost))] /\
  result_of (run collab (verifySettings 1 badKeyHost) world0)
    = Some (inr (errorsNew "host used unsupported signature algorithm")).
Proof.
  assert (H : Algorithm (PublicKey badKeyHost) <> SignatureEd25519)
    by (vm_compute; intros H; discriminate H).
  split; [exact H|].
  destruct (verifySettings_rejects_unsupported_key collab world0 1
              badKeyHost (or_introl H)) as (Hreqs & [(_ & Hres)|(Hcrit & _)]).
  - split; [exact Hreqs|exact Hres].
  - vm_compute in Hcrit. discriminate Hcrit.
Defined.

Lemma verifySettings_reads_and_checks_witness :
  Algorithm (PublicKey goodHost) = SignatureEd25519 /\
  length (Key (PublicKey goodHost)) = PublicKeySize /\
  reqs (trace_of (run collab (verifySettings 1 goodHost) world0))
    = [CryptoReadSignedObject 1 MaxHostExternalSettingsLen
         (Key (PublicKey goodHost))].
Proof.
  split; [reflexivity|]. split; [reflexivity|].
  exact (proj1 (verifySettings_reads_and_checks collab world0 1 goodHost
                  eq_refl eq_refl)).
Defined.

Lemma negotiated_revision_mirrors_terms_witness :
  exists contract,
    result_of (run collab (negotiateContract 1 goodHost twoOutputs 1) world0)
      = Some (inl contract) /\
    revision_mirrors contract /\ LastRevisionTxn contract = Transaction_zero.
Proof.
  eexists. split; [vm_compute; reflexivity|].
  eapply (negotiated_revision_mirrors_terms collab world0 1 goodHost twoOutputs 1).
  vm_compute. reflexivity.
Defined.

Lemma contract_id_from_signed_set_witness :
  exists contract,
    result_of (run collab (negotiateContract 1 goodHost twoOutputs 1) world0)
      = Some (inl contract) /\
    exists signed t,
      sign_answers
        (trace_of (run collab (negotiateContract 1 goodHost twoOutputs 1) world0))
        = [inl signed] /\
      last signed = Some t /\
      ID contract = Transaction_FileContractID t 0.
Proof.
  eexists. split; [vm_compute; reflexivity|].
  eapply (contract_id_from_signed_set collab world0 1 goodHost twoOutputs 1).
  vm_compute. reflexivity.
Defined.

Lemma host_rejection_aborts_witness :
  In "no thanks"%string
     (host_responses
        (trace_of (run collab (negotiateContract 1 goodHost twoOutputs 1)
                       world_reject))) /\
  "no thanks"%string <> AcceptResponse /\
  result_of (run collab (negotiateContract 1 goodHost twoOutputs 1) world_reject)
    = Some (inr (errorsNew
                   (String.append "host rejected proposed contract: "
                                  "no thanks"))).
Proof.
  assert (H1 : In "no thanks"%string
                 (host_responses
                    (trace_of (run collab (negotiateContract 1 goodHost twoOutputs 1)
                                   world_reject))))
    by (vm_compute; left; reflexivity).
  assert (H2 : "no thanks"%string <> AcceptResponse)
    by (vm_compute; intros H; discriminate H).
  split; [exact H1|]. split; [exact H2|].
  exact (proj1 (host_rejection_aborts collab world_reject 1 goodHost twoOutputs 1
                  "no thanks"%string H1 H2)).
Defined.

Lemma negotiateContract_passes_on_witness :
  In (EncodingWriteObject 1 (ObjTxnSet [7]))
     (reqs (trace_of (run collab (negotiateContract 1 goodHost twoOutputs 1) world0))) /\
  sign_answers
    (trace_of (run collab (negotiateContract 1 goodHost twoOutputs 1) world0))
    = [inl [7]] /\
  In (TpoolAcceptTransactionSet [8])
     (reqs (trace_of (run collab (negotiateContract 1 goodHost twoOutputs 1) world0))) /\
  host_txn_sets
    (trace_of (run collab (negotiateContract 1 goodHost twoOutputs 1) world0))
    = [[8]].
Proof.
  assert (H1 : In (EncodingWriteObject 1 (ObjTxnSet [7]))
                 (reqs (trace_of (run collab
                          (negotiateContract 1 goodHost twoOutputs 1) world0))))
    by (vm_compute; tauto).
  assert (H2 : In (TpoolAcceptTransactionSet [8])
                 (reqs (trace_of (run collab
                          (negotiateContract 1 goodHost twoOutputs 1) world0))))
    by (vm_compute; tauto).
  pose proof (negotiateContract_passes_on collab world0 1 goodHost twoOutputs 1)
    as (Hw & Hp).
  split; [exact H1|]. split; [exact (proj2 (Hw 1 [7] H1))|].
  split; [exact H2|]. exact (proj1 (Hp [8] H2)).
Defined.

Lemma funding_failure_aborts_witness :
  In (Some (errorsNew "insufficient balance"))
     (fund_answers
        (trace_of (run collab (negotiateContract 1 goodHost twoOutputs 1)
                       world_poor))) /\
  result_of (run collab (negotiateContract 1 goodHost twoOutputs 1) world_poor)
    = Some (inr (errorsNew "insufficient balance")).
Proof.
  assert (H : In (Some (errorsNew "insufficient balance"))
                (fund_answers
                   (trace_of (run collab (negotiateContract 1 goodHost twoOutputs 1)
                                  world_poor))))
    by (vm_compute; left; reflexivity).
  split; [exact H|].
  exact (proj1 (funding_failure_aborts collab world_poor 1 goodHost twoOutputs 1
                  _ H)).
Defined.

Lemma planned_filesize_is_affordable_witness :
  exists fs,
    planFilesize allowance2 threeHosts = PlanFilesize fs /\
    Funds allowance2 / costPerSector allowance2 threeHosts * SectorSize < 2 ^ 64 /\
    SectorSize <= fs /\
    avgPrice threeHosts * Hosts allowance2 * fs * Period allowance2
      <= Funds allowance2.
Proof.
  eexists.
  assert (H1 : planFilesize allowance2 threeHosts = PlanFilesize 499122176)
    by (vm_compute; reflexivity).
  assert (H2 : Funds allowance2 / costPerSector allowance2 threeHosts * SectorSize
               < 2 ^ 64) by (vm_compute; reflexivity).
  split; [exact H1|]. split; [exact H2|].
  exact (proj2 (planned_filesize_is_affordable allowance2 threeHosts _ H1 H2)).
Defined.

Lemma formContracts_errors_witness :
  exists err c',
    result_of (run collab (formContracts contractor0 allowance1) world0)
      = Some (Some err, c') /\
    c' = contractor0.
Proof.
  assert (H : result_of (run collab (formContracts contractor0 allowance1) world0)
              = Some (Some errNotEnoughHosts, contractor0))
    by (vm_compute; reflexivity).
  exists errNotEnoughHosts, contractor0. split; [exact H|].
  exact (proj1 (formContracts_errors collab world0 contractor0 allowance1 _ _ H)).
Defined.

Lemma formContracts_not_enough_hosts_witness :
  N.of_nat (length (collab (HdbRandomHosts
                              (int_of_uint64 (mul64 2 (Hosts allowance_three))))
                           world_pair).1)
    < Hosts allowance_three /\
  result_of (run collab (formContracts contractor0 allowance_three) world_pair)
    = Some (Some errNotEnoughHosts, contractor0).
Proof.
  assert (H : N.of_nat (length (collab (HdbRandomHosts
                              (int_of_uint64 (mul64 2 (Hosts allowance_three))))
                           world_pair).1) < Hosts allowance_three)
    by (vm_compute; reflexivity).
  split; [exact H|].
  exact (proj1 (formContracts_not_enough_hosts collab world_pair contractor0
                  allowance_three H)).
Defined.

Lemma formContracts_insufficient_funds_witness :
  Funds allowance_poor
    < costPerSector allowance_poor
        (collab (HdbRandomHosts (int_of_uint64 (mul64 2 (Hosts allowance_poor))))
                world_pair).1 /\
  result_of (run collab (formContracts contractor0 allowance_poor) world_pair)
    = Some (Some errInsufficientFunds, contractor0).
Proof.
  assert (H : Funds allowance_poor
              < costPerSector allowance_poor
                  (collab (HdbRandomHosts
                             (int_of_uint64 (mul64 2 (Hosts allowance_poor))))
                          world_pair).1)
    by (vm_compute; reflexivity).
  split; [exact H|].
  refine (proj1 (formContracts_insufficient_funds collab world_pair contractor0
                   allowance_poor _ _ H)).
  - vm_compute. intros H0. discriminate H0.
  - vm_compute. intros H0. discriminate H0.
Defined.

Lemma formContracts_sets_renew_height_witness :
  exists c',
    result_of (run collab (formContracts contractor0 allowance1) world_two)
      = Some (None, c') /\
    renewHeight c' = add64 (blockHeight contractor0) (Period allowance1).
Proof.
  eexists. split; [vm_compute; reflexivity|].
  refine (proj1 (formContracts_sets_renew_height collab world_two contractor0
                   allowance1 _ _)).
  vm_compute. reflexivity.
Defined.

Lemma newContract_reuses_cached_address_witness :
  cachedAddress contractor_cached <> 0 /\
  ~ In WalletNextAddress
      (reqs (trace_of (run collab (newContract contractor_cached goodHost
                                     4194304 200) world0))).
Proof.
  assert (H : cachedAddress contractor_cached <> 0)
    by (vm_compute; intros H; discriminate H).
  split; [exact H|].
  exact (proj1 (newContract_reuses_cached_address collab world0 contractor_cached
                  goodHost 4194304 200 H)).
Defined.

Lemma addPeer_removePeer_round_trip_witness :
  ("b:9981"%string ∉ peers_a) /\
  Gateway.removePeer (Gateway.addPeer peers_a "b:9981"%string).2 "b:9981"%string
    = (None, peers_a) /\
  ("a:9981"%string ∈ peers_a) /\
  Gateway.addPeer (Gateway.removePeer peers_a "a:9981"%string).2 "a:9981"%string
    = (None, peers_a).
Proof.
  assert (H1 : "b:9981"%string ∉ peers_a)
    by (unfold peers_a; intros H; apply elem_of_singleton in H; discriminate H).
  assert (H2 : "a:9981"%string ∈ peers_a)
    by (unfold peers_a; apply elem_of_singleton; reflexivity).
  split; [exact H1|].
  split; [exact (proj2 (proj1 (addPeer_removePeer_round_trip peers_a _) H1))|].
  split; [exact H2|].
  exact (proj2 (proj2 (addPeer_removePeer_round_trip peers_a _) H2)).
Defined.

Lemma addPeer_removePeer_errors_witness :
  ("a:9981"%string ∈ peers_a) /\
  Gateway.addPeer peers_a "a:9981"%string = (Some Gateway.errAlreadyAdded, peers_a) /\
  ("b:9981"%string ∉ peers_a) /\
  Gateway.removePeer peers_a "b:9981"%string = (Some Gateway.errNoRecord, peers_a).
Proof.
  assert (H1 : "b:9981"%string ∉ peers_a)
    by (unfold peers_a; intros H; apply elem_of_singleton in H; discriminate H).
  assert (H2 : "a:9981"%string ∈ peers_a)
    by (unfold peers_a; apply elem_of_singleton; reflexivity).
  split; [exact H2|].
  split; [exact (proj1 (addPeer_removePeer_errors peers_a _) H2)|].
  split; [exact H1|].
  exact (proj1 (proj2 (addPeer_removePeer_errors peers_a _)) H1).
Defined.

Lemma randomPeer_picks_member_witness :
  Gateway.Intn_contract Gateway.lastIndex /\
  exists p,
    Gateway.randomPeer Gateway.lastIndex ["a:9981"%string; "b:9981"%string]
      = Gateway.Picked p /\
    In p ["a:9981"%string; "b:9981"%string].
Proof.
  assert (H : Gateway.Intn_contract Gateway.lastIndex).
  { split; [reflexivity|]. intros n Hn. destruct n as [|m]; [lia|].
    exists m. split; [reflexivity|lia]. }
  split; [exact H|].
  apply (proj2 (proj2 (randomPeer_picks_member Gateway.lastIndex _ H))).
  intros H0. discriminate H0.
Defined.

End MoreConcrete.
